(** * ipyrad.analysis.pca : PCA of RAD-seq SNPs with imputation of missing data

    A shallow embedding of [src/ipyrad/analysis/pca.py].  The class [PCA]
    becomes a record of its attributes that is threaded through the methods;
    exceptions become the [Raise] case of a result type; [print] calls and
    calls to collaborators are recorded in an event log.

    Floating point values (coverage thresholds, principal coordinates,
    regression slopes, proportions) are idealised as rationals [Q]: every
    arithmetic operation below is the exact one.  Genotype codes are integers
    [Z], with [9] the code of a missing call. *)

From Stdlib Require Import ZArith QArith Qround Lqa Lia List String Bool DecimalString.
From stdpp Require Import base list strings gmap.
Import ListNotations.
Local Open Scope Z_scope.

(** ** Python values, exceptions and results *)

Module Py.

Inductive exn : Type :=
| IPyradError (msg : string)
| NotImplementedError (msg : string)
| AssertionError (msg : string)
| IndexError
| KeyError (key : string)
| ValueError
| TypeError
| AttributeError.

Inductive result (A : Type) : Type :=
| Ok (a : A)
| Raise (e : exn).
Arguments Ok {A} a.
Arguments Raise {A} e.

Definition bind {A B} (r : result A) (k : A -> result B) : result B :=
  match r with
  | Ok a => k a
  | Raise e => Raise e
  end.

(** The values an argument such as [impute_method] or [seed] can take. *)
Inductive value : Type :=
| PyNone
| PyBool (b : bool)
| PyInt (z : Z)
| PyStr (s : string).

(** [isinstance(v, int)]: [bool] is a subclass of [int]. *)
Definition isinstance_int (v : value) : bool :=
  match v with
  | PyBool _ | PyInt _ => true
  | _ => false
  end.

(** [v is False] *)
Definition is_False (v : value) : bool :=
  match v with
  | PyBool false => true
  | _ => false
  end.

(** [v == "sample"] *)
Definition eq_str (v : value) (s : string) : bool :=
  match v with
  | PyStr t => String.eqb t s
  | _ => false
  end.

(** The integer an int-like value stands for ([True] is 1, [False] is 0). *)
Definition int_of (v : value) : Z :=
  match v with
  | PyInt z => z
  | PyBool true => 1
  | _ => 0
  end.

(** ["{}".format(n)] for a natural number. *)
Definition str_of_nat (n : nat) : string :=
  NilEmpty.string_of_uint (Nat.to_uint n).

(** [s.endswith(suffix)] *)
Definition endswith (s suffix : string) : bool :=
  let n := String.length s in
  let k := String.length suffix in
  (k <=? n)%nat && String.eqb (String.substring (n - k) k s) suffix.

End Py.

(** [x ← c; k] runs [c] and stops at the first exception. *)
#[global] Instance result_ret : MRet Py.result := @Py.Ok.
#[global] Instance result_bind : MBind Py.result := fun A B k r => Py.bind r k.

(** ** numpy arrays

    A two dimensional array is the list of its rows.  Arrays produced by
    numpy are rectangular; [shape1] reads the number of columns off the first
    row. *)

Module Np.

Definition ndarray (A : Type) : Type := list (list A).

Definition shape1 {A} (m : ndarray A) : nat :=
  match m with
  | [] => O
  | r :: _ => length r
  end.

(** Index normalisation along an axis of length [n]: negative indices count
    from the end, anything outside [-n, n) is an IndexError. *)
Definition norm_index (ax : Z) (n : nat) : option nat :=
  if (0 <=? ax) && (ax <? Z.of_nat n) then Some (Z.to_nat ax)
  else if (- Z.of_nat n <=? ax) && (ax <? 0) then Some (Z.to_nat (ax + Z.of_nat n))
  else None.

(** [m[:, j]] for an index already normalised. *)
Definition column {A} (d : A) (m : ndarray A) (j : nat) : list A :=
  map (fun r => nth j r d) m.

(** [m[:, ax]] *)
Definition getcol {A} (d : A) (m : ndarray A) (ax : Z) : Py.result (list A) :=
  match norm_index ax (shape1 m) with
  | Some j => Py.Ok (column d m j)
  | None => Py.Raise Py.IndexError
  end.

(** [m[:, cols]] with an array of column indices. *)
Definition take_columns {A} (d : A) (m : ndarray A) (cols : list nat) : ndarray A :=
  map (fun r => map (fun j => nth j r d) cols) m.

(** [m[:, j] = m[:, j] * -1], in place. *)
Definition negate_column (m : ndarray Q) (j : nat) : ndarray Q :=
  map (alter Qopp j) m.

Definition Qsum (l : list Q) : Q := fold_right Qplus 0%Q l.

(** [np.mean] of a vector. *)
Definition mean (l : list Q) : Q :=
  (Qsum l / inject_Z (Z.of_nat (length l)))%Q.

(** [np.linspace(start, stop, num)] with the end point included. *)
Definition linspace (start stop : Q) (num : nat) : list Q :=
  match num with
  | O => []
  | S O => [start]
  | S n =>
      let step := ((stop - start) / inject_Z (Z.of_nat n))%Q in
      map (fun i => if (i =? n)%nat then stop
                    else (start + inject_Z (Z.of_nat i) * step)%Q)
          (seq 0 num)
  end.

(** [np.unique] on integers: the sorted distinct values. *)
Fixpoint insert_sorted (z : Z) (l : list Z) : list Z :=
  match l with
  | [] => [z]
  | y :: l' =>
      if z <? y then z :: l
      else if z =? y then l
      else y :: insert_sorted z l'
  end.

Definition unique (l : list Z) : list Z := fold_right insert_sorted [] l.

(** [np.where(v == i)[0]] *)
Definition where_eq (v : list Z) (i : Z) : list nat :=
  map fst (List.filter (fun p => snd p =? i) (combine (seq 0 (length v)) v)).

(** [np.tile(np.arange(n), reps)] *)
Fixpoint tile_arange (n reps : nat) : list nat :=
  match reps with
  | O => []
  | S r => seq 0 n ++ tile_arange n r
  end.

(** Round half to even to the nearest integer ([np.rint]). *)
Definition rint (q : Q) : Z :=
  let f := Qfloor q in
  match (q - inject_Z f ?= 1 # 2)%Q with
  | Lt => f
  | Gt => f + 1
  | Eq => if Z.even f then f else f + 1
  end.

(** [round(x, 2)] of a numpy float: scale, round half to even, unscale. *)
Definition round2 (q : Q) : Q :=
  (inject_Z (rint (q * 100)) / 100)%Q.

(** [np.array(rows).mean(axis=0)]: the rows must have one length. *)
Definition mean_axis0 (rows : list (list Q)) : Py.result (list Q) :=
  match rows with
  | [] => Py.Ok []
  | r0 :: _ =>
      if forallb (fun r => (length r =? length r0)%nat) rows
      then Py.Ok (map (fun j => mean (map (fun r => nth j r 0%Q) rows))
                      (seq 0 (length r0)))
      else Py.Raise Py.ValueError
  end.

End Np.

(** ** scikit-learn primitives used by [draw]

    The two estimators are external library code; they are written out here
    as their documented closed forms over exact arithmetic. *)

Module Sklearn.

(** Ordinary least squares with an intercept and one feature: the slope is
    the centred cross product over the centred sum of squares.  A constant
    predictor gives the minimum-norm solution, slope 0, which is also what
    division by zero yields in [Q]. *)
Definition ols_slope (x y : list Q) : Q :=
  let mx := Np.mean x in
  let my := Np.mean y in
  (Np.Qsum (map (fun p => (fst p - mx) * (snd p - my)) (combine x y))
   / Np.Qsum (map (fun a => (a - mx) * (a - mx)) x))%Q.

(** [model.fit(x, y); model.coef_[0][0]] for column vectors [x], [y]. *)
Definition LinearRegression_coef (x y : list Q) : Py.result Q :=
  if (length x =? length y)%nat && negb (length x =? 0)%nat
  then Py.Ok (ols_slope x y)
  else Py.Raise Py.ValueError.

(** Rows of [X] carrying the class label [c]. *)
Definition members (X : list (Q * Q)) (y : list Z) (c : Z) : list (Q * Q) :=
  map fst (List.filter (fun p => snd p =? c) (combine X y)).

(** [X[y == c].mean(axis=0)] *)
Definition centroid (X : list (Q * Q)) (y : list Z) (c : Z) : Q * Q :=
  (Np.mean (map fst (members X y c)), Np.mean (map snd (members X y c))).

(** [NearestCentroid().fit(X, y).centroids_]: one row per class, classes
    in sorted order; fewer than two classes is refused. *)
Definition NearestCentroid_centroids (X : list (Q * Q)) (y : list Z)
  : Py.result (list (Q * Q)) :=
  if (length X =? length y)%nat then
    let classes := Np.unique y in
    if (length classes <? 2)%nat then Py.Raise Py.ValueError
    else Py.Ok (map (centroid X y) classes)
  else Py.Raise Py.ValueError.

End Sklearn.

(** ** Data model *)

(** The sentinel code of a missing genotype call. *)
Definition MISSING : Z := 9.

(** The code of the reference (most common) allele. *)
Definition REF_ALLELE : Z := 0.

(** Keys of a population map: population names given by the user, or the
    integer labels found by k-means. *)
Inductive key : Type :=
| KStr (s : string)
| KInt (z : Z).

(** [imap] and [minmap] are dicts; iteration order matters for them. *)
Definition imap_t : Type := list (key * list string).
Definition minmap_t : Type := list (key * Q).

(** What [SNPsExtracter.parse_genos_from_hdf5] leaves on the extracter. *)
Record extracted : Type := {
  ext_snps : Np.ndarray Z;
  ext_snpsmap : Np.ndarray Z;
  ext_names : list string;
  ext_mvals : Z;
}.

(** [.pcaxes] and [.variances] hold a message string until [run] stores a
    dict keyed by the replicate indices [0 .. R-1]. *)
Inductive stored (A : Type) : Type :=
| NoResults
| Results (reps : list A).
Arguments NoResults {A}.
Arguments Results {A} reps.

(** What is printed, and which collaborators are called with what. *)
Inductive event : Type :=
| Print_null_imputation
| Print_kmeans_iter (it : nat) (K : Py.value) (kmeans_mincov : Q) (kmeans_minmap : minmap_t)
| Print_imap (kmeans_imap : imap_t)
| Print_blank
| Print_subsampling (kept total : nat)
| Call_extract (imap : imap_t) (minmap : minmap_t) (mincov : Q)
| Call_impute (imap : imap_t)
| Call_jsubsample (seed : Z).

(** The attributes of a [PCA] object. *)
Record PCA : Type := {
  quiet : bool;
  data : string;
  impute_method : Py.value;
  mincov : Q;
  imap : imap_t;
  minmap : minmap_t;
  topcov : Q;
  niters : nat;
  pcaxes : stored (Np.ndarray Q);
  variances : stored (list Q);
  snps : option (Np.ndarray Z);
  snpsmap : Np.ndarray Z;
  names : list string;
  _mvals : Z;
  missing : gmap string Q;
}.

Definition set_snps (self : PCA) (v : option (Np.ndarray Z)) : PCA :=
  {| quiet := quiet self; data := data self; impute_method := impute_method self;
     mincov := mincov self; imap := imap self; minmap := minmap self;
     topcov := topcov self; niters := niters self; pcaxes := pcaxes self;
     variances := variances self; snps := v; snpsmap := snpsmap self;
     names := names self; _mvals := _mvals self; missing := missing self |}.

Definition set_snpsmap (self : PCA) (v : Np.ndarray Z) : PCA :=
  {| quiet := quiet self; data := data self; impute_method := impute_method self;
     mincov := mincov self; imap := imap self; minmap := minmap self;
     topcov := topcov self; niters := niters self; pcaxes := pcaxes self;
     variances := variances self; snps := snps self; snpsmap := v;
     names := names self; _mvals := _mvals self; missing := missing self |}.

Definition set_pcaxes (self : PCA) (v : stored (Np.ndarray Q)) : PCA :=
  {| quiet := quiet self; data := data self; impute_method := impute_method self;
     mincov := mincov self; imap := imap self; minmap := minmap self;
     topcov := topcov self; niters := niters self; pcaxes := v;
     variances := variances self; snps := snps self; snpsmap := snpsmap self;
     names := names self; _mvals := _mvals self; missing := missing self |}.

Definition set_variances (self : PCA) (v : stored (list Q)) : PCA :=
  {| quiet := quiet self; data := data self; impute_method := impute_method self;
     mincov := mincov self; imap := imap self; minmap := minmap self;
     topcov := topcov self; niters := niters self; pcaxes := pcaxes self;
     variances := v; snps := snps self; snpsmap := snpsmap self;
     names := names self; _mvals := _mvals self; missing := missing self |}.

(** ** Collaborators

    The extracter, the imputer and the unlinked-SNP sampler are modules of
    ipyrad that [pca.py] imports; numpy's generators and scikit-learn's PCA
    and KMeans are libraries.  The methods below are parametric in all of
    them.  The imputer, the sampler, PCA and KMeans are taken as functions of
    their arguments, as the interfaces in the specification give them. *)

Class Collaborators : Type := {
  (** [sys.modules.get("sklearn")], [sys.modules.get("toyplot")] *)
  sklearn_loaded : bool;
  toyplot_loaded : bool;
  (** [os.path.realpath(os.path.expanduser(path))] *)
  realpath : string -> string;
  (** The state of numpy's global generator and [np.random.randint(0, high)]. *)
  global_rng : Type;
  np_random_randint : global_rng -> Z -> Z * global_rng;
  (** [np.random.RandomState(seed)] and its [randint(0, high)]. *)
  RandomState : Type;
  RandomState_seed : Z -> RandomState;
  RandomState_randint : RandomState -> Z -> Z * RandomState;
  (** [SNPsExtracter(data, imap, minmap, mincov).parse_genos_from_hdf5()] *)
  parse_genos_from_hdf5 : string -> imap_t -> minmap_t -> Q -> extracted;
  (** [SNPsImputer(snps, names, imap, "sample", quiet).run()] *)
  SNPsImputer_run : Np.ndarray Z -> list string -> imap_t -> Np.ndarray Z;
  (** [jsubsample_snps(snpsmap, seed)]: the column indices it keeps. *)
  jsubsample_snps : Np.ndarray Z -> Z -> list nat;
  (** [decomposition.PCA(None)]: the transformed data and
      [explained_variance_ratio_]. *)
  PCA_fit_transform : Np.ndarray Z -> Np.ndarray Q * list Q;
  (** [KMeans(n_clusters=K).fit(X).labels_] *)
  KMeans_labels : Z -> Np.ndarray Q -> list Z;
}.

(** The part of the world a method can change: the global generator and
    what has been printed or called so far (most recent event last). *)
Record world_of (G : Type) : Type := {
  rng : G;
  log : list event;
}.
Arguments rng {G} w.
Arguments log {G} w.

Definition world `{Collaborators} : Type := world_of global_rng.

Definition emit `{Collaborators} (w : world) (e : event) : world :=
  {| rng := rng w; log := log w ++ [e] |}.

(** ** Methods that use the collaborators *)

Section Methods.
Context `{C : Collaborators}.

(** The first lines of the two messages. *)
Definition _MISSING_SKLEARN : string := "This ipyrad tool requires the library scikit-learn.".
Definition _MISSING_TOYPLOT : string := "This ipyrad tool requires the plotting library toyplot.".

(** [self._seed()]: one draw from the global generator. *)
Definition _seed (w : world) : Z * world :=
  let '(s, g) := np_random_randint (rng w) (10 ^ 9) in
  (s, {| rng := g; log := log w |}).

(** [self._print(msg)] *)
Definition _print (self : PCA) (w : world) (msg : event) : world :=
  if quiet self then w else emit w msg.

(** [self.snps[self.snps == 9] = 0] *)
Definition null_fill (m : Np.ndarray Z) : Np.ndarray Z :=
  map (map (fun v => if v =? MISSING then 0 else v)) m.

(** [np.sum(row == 9)] *)
Definition count_missing (row : list Z) : nat :=
  length (List.filter (fun v => v =? MISSING) row).

(** One pass of the loop of [_impute_kmeans] per element of [its], the
    enumerated thresholds still to visit.  The result is [None] when the
    loop runs out without reaching the [return]. *)
Fixpoint kmeans_loop (self : PCA) (w : world) (kmeans_imap : imap_t)
    (its : list (nat * Q)) : PCA * world * option (Np.ndarray Z) :=
  match its with
  | [] => (self, w, None)
  | (it, kmeans_mincov) :: rest =>
      let kmeans_minmap := map (fun p => (fst p, mincov self)) kmeans_imap in
      let w := _print self w
        (Print_kmeans_iter it (impute_method self) kmeans_mincov kmeans_minmap) in
      (* 1. load the original data, filtered with the current imap *)
      let w := emit w (Call_extract kmeans_imap kmeans_minmap kmeans_mincov) in
      let se := parse_genos_from_hdf5 (data self) kmeans_imap kmeans_minmap kmeans_mincov in
      let self := set_snpsmap self (ext_snpsmap se) in
      (* 2. impute with the current clusters *)
      let w := emit w (Call_impute kmeans_imap) in
      let impdata := SNPsImputer_run (ext_snps se) (ext_names se) kmeans_imap in
      if (it =? 4)%nat then (self, w, Some impdata)
      else
        (* 3. subsample unlinked SNPs *)
        let '(seed, w) := _seed w in
        let w := emit w (Call_jsubsample seed) in
        let subdata := Np.take_columns 0 impdata (jsubsample_snps (ext_snpsmap se) seed) in
        (* 4. PCA on the imputed values *)
        let pcadata := fst (PCA_fit_transform subdata) in
        (* 5. k-means gives the next imap *)
        let labels_ := KMeans_labels (Py.int_of (impute_method self)) pcadata in
        let labels := Np.unique labels_ in
        let kmeans_imap :=
          map (fun i => (KInt i, map (fun j => nth j (ext_names se) ""%string)
                                     (Np.where_eq labels_ i))) labels in
        let w := _print self w (Print_imap kmeans_imap) in
        let w := _print self w Print_blank in
        kmeans_loop self w kmeans_imap rest
  end.

(** [self._impute_kmeans(topcov, niters, quiet)]; the body does not use its
    [quiet] argument. *)
Definition _impute_kmeans (self : PCA) (w : world) (topcov : Q) (niters : nat)
  : PCA * world * option (Np.ndarray Z) :=
  let kmeans_imap := [(KStr "global", names self)] in
  let iters := Np.linspace topcov (mincov self) niters in
  kmeans_loop self w kmeans_imap (combine (seq 0 (length iters)) iters).

(** Which branch of [_impute_data] an [impute_method] selects. *)
Inductive policy : Type := Sample | Kmeans | Null.

Definition dispatch (m : Py.value) : policy :=
  if Py.eq_str m "sample" then Sample
  else if Py.isinstance_int m then Kmeans
  else Null.

Definition _impute_data (self : PCA) (w : world) : PCA * world * Py.result unit :=
  match dispatch (impute_method self) with
  | Sample =>
      match snps self with
      | Some m =>
          let w := emit w (Call_impute (imap self)) in
          (set_snps self (Some (SNPsImputer_run m (names self) (imap self))), w, Py.Ok tt)
      | None => (self, w, Py.Raise Py.TypeError)
      end
  | Kmeans =>
      let '(self, w, r) := _impute_kmeans self w (topcov self) (niters self) in
      (set_snps self r, w, Py.Ok tt)
  | Null =>
      match snps self with
      | Some m =>
          (set_snps self (Some (null_fill m)), _print self w Print_null_imputation, Py.Ok tt)
      | None => (self, w, Py.Raise Py.TypeError)
      end
  end.

(** [names.index(name)] for a name of the list. *)
Fixpoint index (l : list string) (name : string) : nat :=
  match l with
  | [] => O
  | x :: l' => if String.eqb x name then O else S (index l' name)
  end.

(** The per-sample record of missing data built by the constructor: a frame
    of zeros indexed by the names, then one assignment per name. *)
Definition missing_of (snps : Np.ndarray Z) (names : list string)
  : Py.result (gmap string Q) :=
  let miss := map (fun row => (inject_Z (Z.of_nat (count_missing row))
                               / inject_Z (Z.of_nat (Np.shape1 snps)))%Q) snps in
  let frame : gmap string Q := list_to_map (map (fun name => (name, 0%Q)) names) in
  if forallb (fun name => (index names name <? length miss)%nat) names then
    Py.Ok (fold_left (fun (fr : gmap string Q) name =>
                        <[name := Np.round2 (nth (index names name) miss 0%Q)]> fr)
                     names frame)
  else Py.Raise Py.IndexError.

(** [minmap if minmap else {i: 1 for i in self.imap}] *)
Definition default_minmap (imap : imap_t) (minmap : minmap_t) : minmap_t :=
  match minmap with
  | [] => map (fun p => (fst p, 1%Q)) imap
  | _ => minmap
  end.

(** What the constructor's extracter loads from the data file. *)
Definition load (data : string) (imap : imap_t) (minmap : minmap_t) (mincov : Q)
  : extracted :=
  parse_genos_from_hdf5 (realpath data) imap (default_minmap imap minmap) mincov.

(** [PCA(data, impute_method, imap, minmap, mincov, quiet, topcov, niters)];
    an absent or empty [imap] or [minmap] is the empty list.  (The
    [quiet] flag passed to the extracter only silences its own report.) *)
Definition __init__ (w : world) (data : string) (impute_method : Py.value)
    (imap : imap_t) (minmap : minmap_t) (mincov : Q) (quiet : bool)
    (topcov : Q) (niters : nat) : world * Py.result PCA :=
  if negb sklearn_loaded then (w, Py.Raise (Py.IPyradError _MISSING_SKLEARN))
  else if negb toyplot_loaded then (w, Py.Raise (Py.IPyradError _MISSING_TOYPLOT))
  else
    let ext := load data imap minmap mincov in
    let data := realpath data in
    let minmap := default_minmap imap minmap in
    if Py.endswith data ".vcf"
    then (w, Py.Raise (Py.NotImplementedError "Sorry, not yet supported. Use .snps.hdf5."))
    else
      let w := emit w (Call_extract imap minmap mincov) in
      let '(imap, minmap) :=
        match imap with
        | [] => ([(KStr "1", ext_names ext)], [(KStr "1", 1 # 2)])
        | _ => (imap, minmap)
        end in
      match missing_of (ext_snps ext) (ext_names ext) with
      | Py.Raise e => (w, Py.Raise e)
      | Py.Ok miss =>
          let self :=
            {| quiet := quiet; data := data; impute_method := impute_method;
               mincov := mincov; imap := imap; minmap := minmap;
               topcov := topcov; niters := niters;
               pcaxes := NoResults; variances := NoResults;
               snps := Some (ext_snps ext); snpsmap := ext_snpsmap ext;
               names := ext_names ext; _mvals := ext_mvals ext;
               missing := miss |} in
          if negb (Py.is_False impute_method) && negb (ext_mvals ext =? 0) then
            let '(self, w, r) := _impute_data self w in
            match r with
            | Py.Ok _ => (w, Py.Ok self)
            | Py.Raise e => (w, Py.Raise e)
            end
          else (w, Py.Ok self)
      end.

(** [self._run(seed, subsample, quiet)]: one decomposition. *)
Definition _run (self : PCA) (w : world) (seed : Z) (subsample quiet : bool)
  : world * Py.result (Np.ndarray Q * list Q) :=
  match snps self with
  | None => (w, Py.Raise Py.TypeError)
  | Some m =>
      let '(data, w) :=
        if subsample then
          let w := emit w (Call_jsubsample seed) in
          let d := Np.take_columns 0 m (jsubsample_snps (snpsmap self) seed) in
          (d, if quiet then w else emit w (Print_subsampling (Np.shape1 d) (Np.shape1 m)))
        else (m, w) in
      (w, Py.Ok (PCA_fit_transform data))
  end.

(** The loop [for idx in range(1, nreplicates)] of [run], [n] replicates to
    go; results are accumulated in replicate order. *)
Fixpoint run_replicates (self : PCA) (w : world) (gen : RandomState)
    (subsample : bool) (n : nat)
  : world * Py.result (list (Np.ndarray Q * list Q)) :=
  match n with
  | O => (w, Py.Ok [])
  | S n' =>
      let '(s, gen) := RandomState_randint gen (10 ^ 15) in
      match _run self w s subsample true with
      | (w, Py.Raise e) => (w, Py.Raise e)
      | (w, Py.Ok r) =>
          match run_replicates self w gen subsample n' with
          | (w, Py.Raise e) => (w, Py.Raise e)
          | (w, Py.Ok rs) => (w, Py.Ok (r :: rs))
          end
      end
  end.

(** [self.run(nreplicates, seed, subsample, quiet)]; [seed] and [quiet] are
    [None] or a value. *)
Definition run (self : PCA) (w : world) (nreplicates : Z) (seed : option Z)
    (subsample : bool) (quiet_arg : option bool) : PCA * world * Py.result unit :=
  let nreplicates := if nreplicates =? 0 then 1 else nreplicates in
  let q := match quiet_arg with
           | Some true => true
           | _ => quiet self
           end in
  let '(seed, w) := match seed with
                    | Some s => if s =? 0 then _seed w else (s, w)
                    | None => _seed w
                    end in
  if negb ((0 <=? seed) && (seed <? 2 ^ 32)) then (self, w, Py.Raise Py.ValueError)
  else
    let gen := RandomState_seed seed in
    let '(s0, gen) := RandomState_randint gen (10 ^ 15) in
    match _run self w s0 subsample q with
    | (w, Py.Raise e) => (self, w, Py.Raise e)
    | (w, Py.Ok r0) =>
        match run_replicates self w gen subsample (Z.to_nat (nreplicates - 1)) with
        | (w, Py.Raise e) => (self, w, Py.Raise e)
        | (w, Py.Ok rs) =>
            let self := set_pcaxes self (Results (map fst (r0 :: rs))) in
            let self := set_variances self (Results (map snd (r0 :: rs))) in
            (self, w, Py.Ok tt)
        end
    end.

(** Construction followed by [run]: a full analysis. *)
Definition full_run (w : world) (data : string) (impute_method : Py.value)
    (imap : imap_t) (minmap : minmap_t) (mincov : Q) (quiet : bool)
    (topcov : Q) (niters : nat) (nreplicates : Z) (seed : option Z)
    (subsample : bool) : world * Py.result PCA :=
  match __init__ w data impute_method imap minmap mincov quiet topcov niters with
  | (w, Py.Raise e) => (w, Py.Raise e)
  | (w, Py.Ok self) =>
      match run self w nreplicates seed subsample None with
      | (self, w, Py.Ok _) => (w, Py.Ok self)
      | (_, w, Py.Raise e) => (w, Py.Raise e)
      end
  end.

End Methods.

(** ** [draw]: sign reconciliation, centroids and the scatterplot

    Rendering belongs to toyplot; of the plot the model keeps the axis
    labels, the population whose marker each sample gets, and the coordinate
    series handed to each [scatterplot] call.  Colours, shapes and the legend
    are left out. *)

Definition Qlt_bool (a b : Q) : bool := negb (Qle_bool b a).

(** The body of the inner loop, for replicate [di] and axis [ax]: fit the
    reference column against the replicate's column and against its
    negation, and negate the column in place when the second slope is the
    larger ([x * -1] is the exact negation). *)
Definition reconcile_axis (d0 di : Np.ndarray Q) (ax : Z)
  : Np.ndarray Q * Py.result unit :=
  match Np.getcol 0%Q d0 ax, Np.getcol 0%Q di ax, Np.norm_index ax (Np.shape1 di) with
  | Py.Ok orig, Py.Ok new, Some j =>
      let swap := map Qopp new in
      match Sklearn.LinearRegression_coef orig new,
            Sklearn.LinearRegression_coef orig swap with
      | Py.Ok c0, Py.Ok c1 =>
          if Qlt_bool c0 c1 then (Np.negate_column di j, Py.Ok tt)
          else (di, Py.Ok tt)
      | Py.Raise e, _ => (di, Py.Raise e)
      | _, Py.Raise e => (di, Py.Raise e)
      end
  | Py.Raise e, _, _ => (di, Py.Raise e)
  | _, Py.Raise e, _ => (di, Py.Raise e)
  | _, _, None => (di, Py.Raise Py.IndexError)
  end.

(** [for ax in [ax0, ax1]: ...] for one replicate. *)
Definition reconcile_replicate (d0 di : Np.ndarray Q) (ax0 ax1 : Z)
  : Np.ndarray Q * Py.result unit :=
  match reconcile_axis d0 di ax0 with
  | (di, Py.Ok _) => reconcile_axis d0 di ax1
  | (di, Py.Raise e) => (di, Py.Raise e)
  end.

(** [for i in range(1, len(datas)): ...] over the replicates after the
    first; an exception leaves the later replicates as they were. *)
Fixpoint reconcile_from (d0 : Np.ndarray Q) (rest : list (Np.ndarray Q)) (ax0 ax1 : Z)
  : list (Np.ndarray Q) * Py.result unit :=
  match rest with
  | [] => ([], Py.Ok tt)
  | di :: rest' =>
      match reconcile_replicate d0 di ax0 ax1 with
      | (di, Py.Ok _) =>
          let '(rest', r) := reconcile_from d0 rest' ax0 ax1 in
          (di :: rest', r)
      | (di, Py.Raise e) => (di :: rest', Py.Raise e)
      end
  end.

(** The whole reconciliation loop on the stored replicates. *)
Definition reconcile (datas : list (Np.ndarray Q)) (ax0 ax1 : Z)
  : list (Np.ndarray Q) * Py.result unit :=
  match datas with
  | [] => ([], Py.Ok tt)
  | d0 :: rest =>
      let '(rest, r) := reconcile_from d0 rest ax0 ax1 in
      (d0 :: rest, r)
  end.

(** [datas[i][:, ax0]] and [datas[i][:, ax1]] of every replicate. *)
Fixpoint series (datas : list (Np.ndarray Q)) (ax0 ax1 : Z)
  : Py.result (list (list Q * list Q)) :=
  match datas with
  | [] => Py.Ok []
  | d :: datas' =>
      x ← Np.getcol 0%Q d ax0;
      y ← Np.getcol 0%Q d ax1;
      rest ← series datas' ax0 ax1;
      mret ((x, y) :: rest)
  end.

(** [Xarr]: the rows [(x, y)] of every replicate, one replicate after the
    other. *)
Definition Xarr_of (ss : list (list Q * list Q)) : list (Q * Q) :=
  concat (map (fun s => combine (fst s) (snd s)) ss).

(** [yarr = np.tile(np.arange(len(names)), nreplicates)] *)
Definition yarr_of (nnames nreplicates : nat) : list Z :=
  map Z.of_nat (Np.tile_arange nnames nreplicates).

(** The block "compute centroids" of [draw]. *)
Definition compute_centroids (ss : list (list Q * list Q)) (nnames : nat)
  : Py.result (list (Q * Q)) :=
  Sklearn.NearestCentroid_centroids (Xarr_of ss) (yarr_of nnames (length ss)).

(** [irev]: sample name to population, later entries of [imap] winning. *)
Definition irev_of (imap : imap_t) : gmap string key :=
  fold_left (fun (irev : gmap string key) (p : key * list string) =>
               fold_left (fun (irev : gmap string key) val => <[val := fst p]> irev)
                         (snd p) irev)
            imap ∅.

(** [irev[name]] for every name, in order. *)
Fixpoint markers_of (irev : gmap string key) (names : list string)
  : Py.result (list key) :=
  match names with
  | [] => Py.Ok []
  | name :: names' =>
      match irev !! name with
      | None => Py.Raise (Py.KeyError name)
      | Some pop =>
          rest ← markers_of irev names';
          mret (pop :: rest)
      end
  end.

Inductive axis_label : Type :=
| PC_label (ax : Z) (percent : Q)
| TSNE_label (component : nat).

(** [variance[ax]] *)
Definition getitem (v : list Q) (ax : Z) : Py.result Q :=
  match Np.norm_index ax (length v) with
  | Some j => Py.Ok (nth j v 0%Q)
  | None => Py.Raise Py.IndexError
  end.

Definition labels_of (variance : list Q) (ax0 ax1 : Z)
  : Py.result (axis_label * axis_label) :=
  v0 ← getitem variance ax0;
  if Qle_bool 0 v0 then
    v1 ← getitem variance ax1;
    mret (PC_label ax0 (v0 * 100), PC_label ax1 (v1 * 100))
  else mret (TSNE_label 1, TSNE_label 2).

Record plot : Type := {
  xlabel : axis_label;
  ylabel : axis_label;
  point_markers : list key;
  (** the replicate clouds, in drawing order (none for a single replicate) *)
  clouds : list (list Q * list Q);
  (** the last scatterplot: the points, or the centroids of the replicates *)
  mark : list Q * list Q;
}.

Definition axes_message (ncols : nat) : string :=
  ("data set only has " ++ Py.str_of_nat ncols ++ " axes.")%string.

(** Everything after the reconciliation loop; the stored replicates are
    only read from here on. *)
Definition draw_plot (self : PCA) (datas : list (Np.ndarray Q)) (variance : list Q)
    (ax0 ax1 : Z) : Py.result plot :=
  marks ← markers_of (irev_of (imap self)) (names self);
  labs ← labels_of variance ax0 ax1;
  ss ← series datas ax0 ax1;
  if (length datas <? 2)%nat then
    match ss with
    | s0 :: _ =>
        mret {| xlabel := fst labs; ylabel := snd labs; point_markers := marks;
                clouds := []; mark := s0 |}
    | [] => Py.Raise (Py.KeyError "0")
    end
  else
    cs ← compute_centroids ss (length (names self));
    mret {| xlabel := fst labs; ylabel := snd labs; point_markers := marks;
            clouds := ss; mark := (map fst cs, map snd cs) |}.

(** [self.draw(ax0, ax1)] with the default styling arguments.  [datas] is
    the very dict stored in [self.pcaxes], so the reconciliation writes
    through to the object, also when a later step raises. *)
Definition draw (self : PCA) (ax0 ax1 : Z) : PCA * Py.result plot :=
  match variances self, pcaxes self with
  | NoResults, _ => (self, Py.Raise Py.AttributeError)
  | Results vs, NoResults =>
      match Np.mean_axis0 vs with
      | Py.Raise e => (self, Py.Raise e)
      | Py.Ok _ => (self, Py.Raise Py.AttributeError)
      end
  | Results vs, Results datas =>
      match Np.mean_axis0 vs with
      | Py.Raise e => (self, Py.Raise e)
      | Py.Ok variance =>
          match datas with
          | [] => (self, Py.Raise (Py.KeyError "0"))
          | d0 :: _ =>
              if negb (Z.max ax0 ax1 <? Z.of_nat (Np.shape1 d0))
              then (self, Py.Raise (Py.AssertionError (axes_message (Np.shape1 d0))))
              else
                let '(datas, r) := reconcile datas ax0 ax1 in
                let self := set_pcaxes self (Results datas) in
                match r with
                | Py.Raise e => (self, Py.Raise e)
                | Py.Ok _ => (self, draw_plot self datas variance ax0 ax1)
                end
          end
      end
  end.

(** The verdict of the slope comparison for replicate [di] on axis [ax]:
    whether the negated column is fitted with the larger slope. *)
Definition flip_wins (d0 di : Np.ndarray Q) (ax : Z) : Py.result bool :=
  orig ← Np.getcol 0%Q d0 ax;
  new ← Np.getcol 0%Q di ax;
  c0 ← Sklearn.LinearRegression_coef orig new;
  c1 ← Sklearn.LinearRegression_coef orig (map Qopp new);
  mret (Qlt_bool c0 c1).

(** ** Observations used in the statements *)

Definition set_imap (self : PCA) (v : imap_t) : PCA :=
  {| quiet := quiet self; data := data self; impute_method := impute_method self;
     mincov := mincov self; imap := v; minmap := minmap self;
     topcov := topcov self; niters := niters self; pcaxes := pcaxes self;
     variances := variances self; snps := snps self; snpsmap := snpsmap self;
     names := names self; _mvals := _mvals self; missing := missing self |}.

(** The coverage thresholds of the filtering passes recorded in a log, in
    the order the passes were made. *)
Fixpoint passes (l : list event) : list Q :=
  match l with
  | [] => []
  | Call_extract _ _ c :: l' => c :: passes l'
  | _ :: l' => passes l'
  end.

(** How many imputation calls a log records. *)
Fixpoint imputations (l : list event) : nat :=
  match l with
  | [] => O
  | Call_impute _ :: l' => S (imputations l')
  | _ :: l' => imputations l'
  end.

(** The seeds handed to the unlinked-SNP sampler, in order. *)
Fixpoint sampler_seeds (l : list event) : list Z :=
  match l with
  | [] => []
  | Call_jsubsample s :: l' => s :: sampler_seeds l'
  | _ :: l' => sampler_seeds l'
  end.

(** The first [n] values [randint(0, high)] draws from a seeded generator. *)
Fixpoint draws `{Collaborators} (gen : RandomState) (high : Z) (n : nat) : list Z :=
  match n with
  | O => []
  | S n' => let '(s, gen) := RandomState_randint gen high in s :: draws gen high n'
  end.

(** The first [n] values [np.random.randint(0, 1e9)] draws from the global
    generator in state [g]. *)
Fixpoint global_draws `{Collaborators} (g : global_rng) (n : nat) : list Z :=
  match n with
  | O => []
  | S n' => let '(s, g) := np_random_randint g (10 ^ 9) in s :: global_draws g n'
  end.

(** The matrix one replicate decomposes, for the seed it was given. *)
Definition replicate_data `{Collaborators} (self : PCA) (m : Np.ndarray Z)
    (subsample : bool) (seed : Z) : Np.ndarray Z :=
  if subsample then Np.take_columns 0 m (jsubsample_snps (snpsmap self) seed) else m.

(** What a call leaves for the user to read: the stored coordinates and
    variances, and whether it raised. *)
Definition outcome `{Collaborators} (r : PCA * world * Py.result unit)
  : stored (Np.ndarray Q) * stored (list Q) * Py.result unit :=
  (pcaxes (fst (fst r)), variances (fst (fst r)), snd r).

Definition results_of `{Collaborators} (r : world * Py.result PCA)
  : option (stored (Np.ndarray Q) * stored (list Q)) :=
  match snd r with
  | Py.Ok self => Some (pcaxes self, variances self)
  | Py.Raise _ => None
  end.

(** The stored array of replicate [i], if there is one. *)
Definition replicate_at {A} (s : stored A) (i : nat) : option A :=
  match s with
  | NoResults => None
  | Results reps => reps !! i
  end.

(** Whether a genotype matrix still holds a missing call. *)
Definition has_missing (m : Np.ndarray Z) : bool :=
  existsb (existsb (fun v => v =? MISSING)) m.

(** Modelled from the spec: the extracter ([SNPsExtracter], a module of
    ipyrad that [pca.py] imports) reports in [_mvals] whether any missing
    values remain in the matrix it has filtered. *)
Definition mvals_flag_ok (e : extracted) : Prop :=
  ext_mvals e <> 0 <-> has_missing (ext_snps e) = true.

(** Reproducibility of full analyses from the top-level seed alone, whatever
    the collaborators and the state of the global generator. *)
Definition full_runs_reproducible : Prop :=
  forall (C : Collaborators) (g1 g2 : global_rng) data impute_method imap minmap
         mincov quiet topcov niters nreplicates (s : Z) subsample,
    results_of (full_run {| rng := g1; log := [] |} data impute_method imap minmap
                  mincov quiet topcov niters nreplicates (Some s) subsample)
    = results_of (full_run {| rng := g2; log := [] |} data impute_method imap minmap
                    mincov quiet topcov niters nreplicates (Some s) subsample).

(** The kmeans engine as documented: [niters] passes at the thresholds of
    [linspace(topcov, mincov, niters)], the last imputed matrix returned. *)
Definition kmeans_passes_as_documented `{Collaborators} (self : PCA) (w : world)
    (topcov : Q) (niters : nat) : Prop :=
  let '(_, w', r) := _impute_kmeans self w topcov niters in
  passes (log w') = passes (log w) ++ Np.linspace topcov (mincov self) niters
  /\ imputations (log w') = (imputations (log w) + niters)%nat
  /\ exists m, r = Some m.

(** ** A small instance of the collaborators

    Two samples and two SNPs on two loci.  The global generator replays a
    list of numbers; the seeded generator counts up from its seed; the
    sampler keeps the column [seed mod 2]; the imputer writes the number of
    populations into missing calls; PCA returns the data unchanged; k-means
    separates zero from non-zero first coordinates. *)

Module Demo.

Definition the_data : extracted :=
  {| ext_snps := [[0; 9]; [0; 0]];
     ext_snpsmap := [[0; 0]; [1; 0]];
     ext_names := ["a"; "b"]%string;
     ext_mvals := 1 |}.

#[local] Instance collaborators : Collaborators := {|
  sklearn_loaded := true;
  toyplot_loaded := true;
  realpath := fun p => p;
  global_rng := list Z;
  np_random_randint := fun g _ =>
    match g with
    | [] => (0, [])
    | x :: g' => (x, g')
    end;
  RandomState := Z;
  RandomState_seed := fun s => s;
  RandomState_randint := fun st _ => (st, st + 1);
  parse_genos_from_hdf5 := fun _ _ _ _ => the_data;
  SNPsImputer_run := fun m _ imap =>
    map (map (fun v => if v =? MISSING then Z.of_nat (length imap) else v)) m;
  jsubsample_snps := fun _ seed => [if Z.even seed then O else 1%nat];
  PCA_fit_transform := fun m => (map (map inject_Z) m, []);
  KMeans_labels := fun _ X =>
    map (fun row => if Qeq_bool (nth 0 row 0%Q) 0 then 0 else 1) X;
|}.

(** A world whose global generator will produce the numbers [g]. *)
Definition start (g : list Z) : world := {| rng := g; log := [] |}.

(** The object built from the demo data with a given [impute_method]. *)
Definition built (method : Py.value) : world * Py.result PCA :=
  __init__ {| rng := []; log := [] |} "demo.snps.hdf5" method [] []
           (1 # 10) true (9 # 10) 5.

Definition analysis (g : list Z) : world * Py.result PCA :=
  full_run {| rng := g; log := [] |} "demo.snps.hdf5" (Py.PyInt 2) [] []
           (1 # 10) true (9 # 10) 5 1 (Some 7) false.

(** Three samples on two axes; replicate 1 is replicate 0 with the first
    axis reversed. *)
Definition two_replicates : PCA :=
  {| quiet := true; data := "demo.snps.hdf5"; impute_method := Py.PyNone;
     mincov := 1 # 10; imap := [(KStr "1", ["a"; "b"; "c"]%string)];
     minmap := [(KStr "1", 1 # 2)]; topcov := 9 # 10; niters := 5;
     pcaxes := Results [ [[-1; 1]; [0; -2]; [1; 1]];
                         [[1; 1]; [0; -2]; [-1; 1]] ]%Q;
     variances := Results [ [3 # 4; 1 # 4]; [3 # 4; 1 # 4] ];
     snps := Some [[0; 1]; [1; 1]; [2; 0]]; snpsmap := [[0; 0]; [1; 0]];
     names := ["a"; "b"; "c"]%string; _mvals := 0; missing := ∅ |}.

End Demo.

(** ** Further methods *)


(** [int(x)] of a float: truncation towards zero. *)
Definition int_of_float (x : Q) : Z := Z.quot (Qnum x) (Z.pos (Qden x)).

(** [self.run_tsne(subsample, perplexity, n_iter, seed)].  The embedding
    [TSNE(perplexity, init='pca', n_iter, random_state).fit_transform(data)]
    is scikit-learn's and is taken as an argument; it may raise, and it is
    handed [None] when the object holds no matrix and no subsampling is
    asked for. *)
Definition run_tsne `{Collaborators}
    (TSNE_fit_transform : Q -> Z -> Z -> option (Np.ndarray Z) -> Py.result (Np.ndarray Q))
    (self : PCA) (w : world) (subsample : bool) (perplexity n_iter : Q)
    (seed : option Z) : PCA * world * Py.result unit :=
  let '(seed, w) := match seed with
                    | Some s => if s =? 0 then _seed w else (s, w)
                    | None => _seed w
                    end in
  let '(data, w) :=
    if subsample then
      match snps self with
      | None => (Py.Raise Py.TypeError, w)
      | Some m =>
          let w := emit w (Call_jsubsample seed) in
          let d := Np.take_columns 0 m (jsubsample_snps (snpsmap self) seed) in
          (Py.Ok (Some d), emit w (Print_subsampling (Np.shape1 d) (Np.shape1 m)))
      end
    else (Py.Ok (snps self), w) in
  match data with
  | Py.Raise e => (self, w, Py.Raise e)
  | Py.Ok data =>
      match TSNE_fit_transform perplexity (int_of_float n_iter) seed data with
      | Py.Raise e => (self, w, Py.Raise e)
      | Py.Ok tsne_data =>
          let self := set_pcaxes self (Results [tsne_data]) in
          let self := set_variances self (Results [[-1; -2]%Q]) in
          (self, w, Py.Ok tt)
      end
  end.

(** The dict comprehension of [_impute_kmeans] that turns the cluster labels
    of the samples into the next population map. *)
Definition imap_of_labels (names : list string) (labels_ : list Z) : imap_t :=
  map (fun i => (KInt i, map (fun j => nth j names ""%string) (Np.where_eq labels_ i)))
      (Np.unique labels_).

(** The fitted slope of a replicate's column on the reference column is not
    negative on axis [ax]. *)
Definition oriented (d0 d : Np.ndarray Q) (ax : Z) : Prop :=
  exists orig new c,
    Np.getcol 0%Q d0 ax = Py.Ok orig
    /\ Np.getcol 0%Q d ax = Py.Ok new
    /\ Sklearn.LinearRegression_coef orig new = Py.Ok c
    /\ (0 <= c)%Q.

(** The object as the constructor has it just before the imputation step,
    [miss] being the record of missing data. *)
Definition fresh_object `{Collaborators} (data : string) (impute_method : Py.value)
    (imap : imap_t) (minmap : minmap_t) (mincov : Q) (quiet : bool) (topcov : Q)
    (niters : nat) (miss : gmap string Q) : PCA :=
  let ext := load data imap minmap mincov in
  {| quiet := quiet; data := realpath data; impute_method := impute_method;
     mincov := mincov;
     imap := match imap with
             | [] => [(KStr "1", ext_names ext)]
             | _ => imap
             end;
     minmap := match imap with
               | [] => [(KStr "1", 1 # 2)]
               | _ => default_minmap imap minmap
               end;
     topcov := topcov; niters := niters;
     pcaxes := NoResults; variances := NoResults;
     snps := Some (ext_snps ext); snpsmap := ext_snpsmap ext;
     names := ext_names ext; _mvals := ext_mvals ext;
     missing := miss |}.

(** * Properties *)

(** ** Arrays *)

Lemma Qopp_opp_eq (q : Q) : Qopp (Qopp q) = q.
Proof. destruct q as [n d]. unfold Qopp. simpl. f_equal. lia. Qed.

Lemma map_Qopp_opp (l : list Q) : map Qopp (map Qopp l) = l.
Proof.
  induction l as [|q l IH]; simpl; [reflexivity|].
  now rewrite Qopp_opp_eq, IH.
Qed.

Lemma nth_alter_Qopp (j : nat) (r : list Q) :
  nth j (alter Qopp j r) 0%Q = Qopp (nth j r 0%Q).
Proof.
  rewrite !nth_lookup, list_lookup_alter_eq.
  destruct (r !! j); reflexivity.
Qed.

Lemma nth_alter_other {A} (f : A -> A) (j k : nat) (r : list A) (d : A) :
  j <> k -> nth k (alter f j r) d = nth k r d.
Proof. intros Hjk. now rewrite !nth_lookup, list_lookup_alter_ne. Qed.

Lemma shape1_negate_column (m : Np.ndarray Q) (j : nat) :
  Np.shape1 (Np.negate_column m j) = Np.shape1 m.
Proof. destruct m as [|r m]; simpl; [reflexivity|]. apply length_alter. Qed.

Lemma column_negate_same (m : Np.ndarray Q) (j : nat) :
  Np.column 0%Q (Np.negate_column m j) j = map Qopp (Np.column 0%Q m j).
Proof.
  unfold Np.column, Np.negate_column. rewrite !map_map.
  apply map_ext. intros r. apply nth_alter_Qopp.
Qed.

Lemma column_negate_other (m : Np.ndarray Q) (j k : nat) :
  j <> k -> Np.column 0%Q (Np.negate_column m j) k = Np.column 0%Q m k.
Proof.
  intros Hjk. unfold Np.column, Np.negate_column. rewrite map_map.
  apply map_ext. intros r. now apply nth_alter_other.
Qed.

Lemma negate_column_twice (m : Np.ndarray Q) (j : nat) :
  Np.negate_column (Np.negate_column m j) j = m.
Proof.
  unfold Np.negate_column. rewrite map_map. rewrite <- (map_id m) at 2.
  apply map_ext. intros r. rewrite list_alter_alter_eq.
  apply list_alter_id. intros q. apply Qopp_opp_eq.
Qed.

Lemma getcol_negate_same (m : Np.ndarray Q) (ax : Z) (j : nat) :
  Np.norm_index ax (Np.shape1 m) = Some j ->
  Np.getcol 0%Q (Np.negate_column m j) ax
  = Py.Ok (map Qopp (Np.column 0%Q m j)).
Proof.
  intros Hj. unfold Np.getcol. rewrite shape1_negate_column, Hj.
  now rewrite column_negate_same.
Qed.

Lemma getcol_negate_other (m : Np.ndarray Q) (ax : Z) (j : nat) :
  Np.norm_index ax (Np.shape1 m) <> Some j ->
  Np.getcol 0%Q (Np.negate_column m j) ax = Np.getcol 0%Q m ax.
Proof.
  intros Hj. unfold Np.getcol. rewrite shape1_negate_column.
  destruct (Np.norm_index ax (Np.shape1 m)) as [k|]; [|reflexivity].
  rewrite column_negate_other; [reflexivity|congruence].
Qed.

Lemma Qlt_bool_iff (a b : Q) : Qlt_bool a b = true <-> (a < b)%Q.
Proof.
  unfold Qlt_bool. rewrite negb_true_iff. split.
  - intros H. apply Qnot_le_lt. intros Hle. apply Qle_bool_iff in Hle. congruence.
  - intros H. destruct (Qle_bool b a) eqn:E; [|reflexivity].
    apply Qle_bool_iff in E. exfalso. apply (Qlt_not_le _ _ H E).
Qed.

Lemma Qlt_bool_asym (a b : Q) : Qlt_bool a b = true -> Qlt_bool b a = false.
Proof.
  intros H. apply Qlt_bool_iff in H.
  destruct (Qlt_bool b a) eqn:E; [|reflexivity].
  apply Qlt_bool_iff in E. exfalso. apply (Qlt_irrefl a). now apply Qlt_trans with b.
Qed.

(** ** The regression slope *)

Lemma Qsum_opp (l : list Q) : (Np.Qsum (map Qopp l) == - Np.Qsum l)%Q.
Proof.
  induction l as [|q l IH]; simpl; [reflexivity|]. rewrite IH. ring.
Qed.

Lemma mean_opp (l : list Q) : (Np.mean (map Qopp l) == - Np.mean l)%Q.
Proof.
  unfold Np.mean, Qdiv. rewrite length_map, Qsum_opp. ring.
Qed.

Lemma cross_products_opp (mx my my' : Q) (x y : list Q) :
  (my' == - my)%Q ->
  (Np.Qsum (map (fun p => (fst p - mx) * (snd p - my')) (combine x (map Qopp y)))
   == - Np.Qsum (map (fun p => (fst p - mx) * (snd p - my)) (combine x y)))%Q.
Proof.
  intros Hm. revert y. induction x as [|a x IH]; intros [|b y]; simpl;
    try reflexivity.
  rewrite IH, Hm. ring.
Qed.

(** Negating the response negates the fitted slope. *)
Lemma ols_slope_opp (x y : list Q) :
  (Sklearn.ols_slope x (map Qopp y) == - Sklearn.ols_slope x y)%Q.
Proof.
  unfold Sklearn.ols_slope, Qdiv.
  rewrite (cross_products_opp (Np.mean x) (Np.mean y) _ x y (mean_opp y)). ring.
Qed.

(** ** The reconciliation loop *)

Lemma reconcile_axis_spec (d0 di : Np.ndarray Q) (ax : Z) :
  reconcile_axis d0 di ax =
  match flip_wins d0 di ax with
  | Py.Ok true =>
      (Np.negate_column di (default O (Np.norm_index ax (Np.shape1 di))), Py.Ok tt)
  | Py.Ok false => (di, Py.Ok tt)
  | Py.Raise e => (di, Py.Raise e)
  end.
Proof.
  unfold reconcile_axis, flip_wins, Np.getcol.
  destruct (Np.norm_index ax (Np.shape1 d0)) as [j0|]; simpl; [|reflexivity].
  destruct (Np.norm_index ax (Np.shape1 di)) as [j|]; simpl; [|reflexivity].
  destruct (Sklearn.LinearRegression_coef _ (Np.column 0%Q di j)) as [c0|e]; simpl;
    [|reflexivity].
  destruct (Sklearn.LinearRegression_coef _ (map Qopp _)) as [c1|e]; simpl;
    [|reflexivity].
  destruct (Qlt_bool c0 c1); reflexivity.
Qed.

Lemma flip_wins_index (d0 di : Np.ndarray Q) (ax : Z) (b : bool) :
  flip_wins d0 di ax = Py.Ok b ->
  exists j, Np.norm_index ax (Np.shape1 di) = Some j.
Proof.
  unfold flip_wins, Np.getcol.
  destruct (Np.norm_index ax (Np.shape1 d0)); simpl; [|discriminate].
  destruct (Np.norm_index ax (Np.shape1 di)) as [j|]; simpl; [|discriminate].
  intros _. now exists j.
Qed.

Lemma flip_wins_after_flip (d0 di : Np.ndarray Q) (ax : Z) (j : nat) :
  flip_wins d0 di ax = Py.Ok true ->
  Np.norm_index ax (Np.shape1 di) = Some j ->
  flip_wins d0 (Np.negate_column di j) ax = Py.Ok false.
Proof.
  intros Hw Hj. unfold flip_wins in *.
  rewrite (getcol_negate_same _ _ _ Hj).
  unfold Np.getcol in *. rewrite Hj in Hw.
  destruct (Np.norm_index ax (Np.shape1 d0)) as [j0|]; simpl in *; [|discriminate].
  rewrite map_Qopp_opp.
  destruct (Sklearn.LinearRegression_coef _ (Np.column 0%Q di j)) as [c0|e]; simpl in *;
    [|discriminate].
  destruct (Sklearn.LinearRegression_coef _ (map Qopp _)) as [c1|e]; simpl in *;
    [|discriminate].
  injection Hw as Hw. now rewrite (Qlt_bool_asym _ _ Hw).
Qed.

Lemma flip_wins_negate_other (d0 di : Np.ndarray Q) (ax : Z) (k : nat) :
  Np.norm_index ax (Np.shape1 di) <> Some k ->
  flip_wins d0 (Np.negate_column di k) ax = flip_wins d0 di ax.
Proof. intros Hk. unfold flip_wins. now rewrite getcol_negate_other. Qed.

(** The negated column wins exactly when the replicate's column is fitted
    to the reference with a negative slope. *)
Lemma flip_wins_negative_slope (d0 di : Np.ndarray Q) (ax : Z) (orig new : list Q)
    (c0 : Q) :
  Np.getcol 0%Q d0 ax = Py.Ok orig ->
  Np.getcol 0%Q di ax = Py.Ok new ->
  Sklearn.LinearRegression_coef orig new = Py.Ok c0 ->
  flip_wins d0 di ax = Py.Ok (Qlt_bool c0 0).
Proof.
  intros Ho Hn Hc. unfold flip_wins. rewrite Ho, Hn. simpl. rewrite Hc. simpl.
  unfold Sklearn.LinearRegression_coef in *. rewrite length_map.
  destruct ((length orig =? length new)%nat && negb (length orig =? 0)%nat);
    [|discriminate].
  injection Hc as <-. simpl. f_equal. apply Bool.eq_iff_eq_true.
  rewrite !Qlt_bool_iff, ols_slope_opp. split; intros H; lra.
Qed.

Lemma reconcile_axis_shape1 (d0 di : Np.ndarray Q) (ax : Z) :
  Np.shape1 (fst (reconcile_axis d0 di ax)) = Np.shape1 di.
Proof.
  rewrite reconcile_axis_spec.
  destruct (flip_wins d0 di ax) as [[|]|e]; simpl; auto using shape1_negate_column.
Qed.

(** After the loop body has run on an axis, the negated column no longer
    wins on that axis. *)
Lemma reconcile_axis_settles (d0 di : Np.ndarray Q) (ax : Z) :
  flip_wins d0 (fst (reconcile_axis d0 di ax)) ax
  = match snd (reconcile_axis d0 di ax) with
    | Py.Ok _ => Py.Ok false
    | Py.Raise e => Py.Raise e
    end.
Proof.
  rewrite reconcile_axis_spec.
  destruct (flip_wins d0 di ax) as [[|]|e] eqn:Hw; simpl; auto.
  destruct (flip_wins_index _ _ _ _ Hw) as [j Hj]. rewrite Hj. simpl.
  now apply flip_wins_after_flip.
Qed.

Lemma reconcile_axis_idem (d0 di : Np.ndarray Q) (ax : Z) :
  reconcile_axis d0 (fst (reconcile_axis d0 di ax)) ax = reconcile_axis d0 di ax.
Proof.
  rewrite (reconcile_axis_spec d0 (fst _)), reconcile_axis_settles.
  destruct (reconcile_axis d0 di ax) as [m [[]|e]]; reflexivity.
Qed.

(** Negating a column does not change whether the two fits go through. *)
Lemma flip_wins_negate_Ok (d0 di : Np.ndarray Q) (ax : Z) (j : nat) (b : bool) :
  flip_wins d0 di ax = Py.Ok b ->
  exists b', flip_wins d0 (Np.negate_column di j) ax = Py.Ok b'.
Proof.
  unfold flip_wins, Np.getcol. rewrite shape1_negate_column.
  destruct (Np.norm_index ax (Np.shape1 d0)) as [j0|]; simpl; [|discriminate].
  destruct (Np.norm_index ax (Np.shape1 di)) as [k|]; simpl; [|discriminate].
  unfold Sklearn.LinearRegression_coef, Np.column, Np.negate_column.
  rewrite !length_map.
  destruct ((length d0 =? length di)%nat && negb (length d0 =? 0)%nat); simpl;
    [|discriminate].
  intros _. eexists. reflexivity.
Qed.

Lemma reconcile_replicate_idem (d0 di : Np.ndarray Q) (ax0 ax1 : Z) :
  reconcile_replicate d0 (fst (reconcile_replicate d0 di ax0 ax1)) ax0 ax1
  = reconcile_replicate d0 di ax0 ax1.
Proof.
  unfold reconcile_replicate.
  pose proof (reconcile_axis_settles d0 di ax0) as Hset.
  pose proof (reconcile_axis_idem d0 di ax0) as Hidem.
  destruct (reconcile_axis d0 di ax0) as [m1 [[]|e]]; simpl in *;
    [|now rewrite Hidem].
  (* the first axis went through and is settled on [m1] *)
  assert (reconcile_axis d0 m1 ax0 = (m1, Py.Ok tt)) as H0
    by now rewrite reconcile_axis_spec, Hset.
  rewrite (reconcile_axis_spec d0 m1 ax1).
  destruct (flip_wins d0 m1 ax1) as [[|]|e] eqn:H1; simpl.
  - (* the second axis negated column [j] *)
    destruct (flip_wins_index _ _ _ _ H1) as [j Hj]. rewrite Hj. simpl.
    pose proof (flip_wins_after_flip _ _ _ _ H1 Hj) as Hafter.
    assert (reconcile_axis d0 (Np.negate_column m1 j) ax1
            = (Np.negate_column m1 j, Py.Ok tt)) as H1'
      by now rewrite reconcile_axis_spec, Hafter.
    rewrite (reconcile_axis_spec d0 (Np.negate_column m1 j) ax0).
    destruct (decide (Np.norm_index ax0 (Np.shape1 m1) = Some j)) as [Heq|Hne].
    + (* both axes name column [j]: a flip on the first is undone by the second *)
      destruct (flip_wins_negate_Ok _ _ _ j _ Hset) as [b Hb]. rewrite Hb.
      destruct b; [|exact H1'].
      rewrite shape1_negate_column, Heq. simpl. rewrite negate_column_twice.
      now rewrite reconcile_axis_spec, H1, Hj.
    + rewrite flip_wins_negate_other, Hset by assumption. exact H1'.
  - now rewrite H0, reconcile_axis_spec, H1.
  - now rewrite H0, reconcile_axis_spec, H1.
Qed.

Lemma reconcile_from_idem (d0 : Np.ndarray Q) (rest : list (Np.ndarray Q)) (ax0 ax1 : Z) :
  reconcile_from d0 (fst (reconcile_from d0 rest ax0 ax1)) ax0 ax1
  = reconcile_from d0 rest ax0 ax1.
Proof.
  induction rest as [|di rest IH]; simpl; [reflexivity|].
  pose proof (reconcile_replicate_idem d0 di ax0 ax1) as Hidem.
  destruct (reconcile_replicate d0 di ax0 ax1) as [m [[]|e]]; simpl in *.
  - destruct (reconcile_from d0 rest ax0 ax1) as [rest' r] eqn:E. simpl in *.
    rewrite Hidem, IH. reflexivity.
  - now rewrite Hidem.
Qed.

Lemma draw_pcaxes (self : PCA) (ax0 ax1 : Z) (datas : list (Np.ndarray Q))
    (d0 : Np.ndarray Q) (vs : list (list Q)) (variance : list Q) :
  pcaxes self = Results datas ->
  datas !! O = Some d0 ->
  variances self = Results vs ->
  Np.mean_axis0 vs = Py.Ok variance ->
  Z.max ax0 ax1 < Z.of_nat (Np.shape1 d0) ->
  pcaxes (fst (draw self ax0 ax1)) = Results (fst (reconcile datas ax0 ax1)).
Proof.
  intros Hp Hd Hv Hm Hax. unfold draw. rewrite Hp, Hv, Hm.
  destruct datas as [|d datas]; [discriminate|]. injection Hd as ->.
  assert ((Z.max ax0 ax1 <? Z.of_nat (Np.shape1 d0)) = true) as ->
    by (apply Z.ltb_lt; lia).
  simpl negb. cbv iota.
  destruct (reconcile (d0 :: datas) ax0 ax1) as [datas' [u|e]]; reflexivity.
Qed.

(** Whatever path [draw] takes, the stored replicates afterwards are the
    stored ones or the reconciled ones. *)
Lemma draw_pcaxes_cases (self : PCA) (ax0 ax1 : Z) :
  pcaxes (fst (draw self ax0 ax1)) = pcaxes self
  \/ exists datas, pcaxes self = Results datas
       /\ pcaxes (fst (draw self ax0 ax1)) = Results (fst (reconcile datas ax0 ax1)).
Proof.
  unfold draw.
  destruct (variances self) as [|vs]; [now left|].
  destruct (pcaxes self) as [|datas] eqn:Hp.
  { destruct (Np.mean_axis0 vs); now left. }
  destruct (Np.mean_axis0 vs) as [variance|e]; [|now left].
  destruct datas as [|d0 datas]; [now left|].
  destruct (negb _); [now left|].
  right. exists (d0 :: datas). split; [reflexivity|].
  destruct (reconcile (d0 :: datas) ax0 ax1) as [datas' [u|e]]; reflexivity.
Qed.

Lemma reconcile_head (datas : list (Np.ndarray Q)) (ax0 ax1 : Z) :
  fst (reconcile datas ax0 ax1) !! O = datas !! O.
Proof.
  destruct datas as [|d0 rest]; simpl; [reflexivity|].
  destruct (reconcile_from d0 rest ax0 ax1); reflexivity.
Qed.

(** C4.  Sign reconciliation never changes replicate 0: for every list of
    replicates and every pair of axes the reconciliation loop returns
    replicate 0 as it was, and so the array stored for replicate 0 on the
    object is the same before and after [draw], whichever way [draw] ends. *)
Theorem reconcile_keeps_replicate_0 (ax0 ax1 : Z) :
  (forall datas : list (Np.ndarray Q),
      fst (reconcile datas ax0 ax1) !! O = datas !! O)
  /\ (forall self : PCA,
         replicate_at (pcaxes (fst (draw self ax0 ax1))) O
         = replicate_at (pcaxes self) O).
Proof.
  split; [intros; apply reconcile_head|].
  intros self. destruct (draw_pcaxes_cases self ax0 ax1) as [->|(datas & Hp & ->)];
    [reflexivity|].
  rewrite Hp. simpl. apply reconcile_head.
Qed.

(** A second [draw] with the same axes finds the stored replicates already
    reconciled and leaves them as the first one stored them. *)
Lemma draw_again (self : PCA) (ax0 ax1 : Z) :
  pcaxes (fst (draw (fst (draw self ax0 ax1)) ax0 ax1))
  = pcaxes (fst (draw self ax0 ax1)).
Proof.
  assert (forall r : Py.result plot,
             draw self ax0 ax1 = (self, r) ->
             pcaxes (fst (draw (fst (draw self ax0 ax1)) ax0 ax1))
             = pcaxes (fst (draw self ax0 ax1))) as Hsame.
  { intros r Hr. rewrite !Hr. simpl fst. now rewrite Hr. }
  destruct (variances self) as [|vs] eqn:Hv.
  { eapply Hsame. unfold draw. rewrite Hv. reflexivity. }
  destruct (pcaxes self) as [|datas] eqn:Hp.
  { destruct (Np.mean_axis0 vs) eqn:Hm; eapply Hsame; unfold draw;
      rewrite Hv, Hp, Hm; reflexivity. }
  destruct (Np.mean_axis0 vs) as [variance|e] eqn:Hm.
  2: { eapply Hsame. unfold draw. rewrite Hv, Hp, Hm. reflexivity. }
  destruct datas as [|d0 rest].
  { eapply Hsame. unfold draw. rewrite Hv, Hp, Hm. reflexivity. }
  destruct (negb (Z.max ax0 ax1 <? Z.of_nat (Np.shape1 d0))) eqn:Hax.
  { eapply Hsame. unfold draw. rewrite Hv, Hp, Hm, Hax. reflexivity. }
  clear Hsame.
  pose proof (reconcile_from_idem d0 rest ax0 ax1) as Hidem.
  destruct (reconcile_from d0 rest ax0 ax1) as [rest' r] eqn:Hrec. simpl in Hidem.
  assert (pcaxes (fst (draw (set_pcaxes self (Results (d0 :: rest'))) ax0 ax1))
          = Results (d0 :: rest')) as Hagain.
  { unfold draw. simpl. rewrite Hv, Hm, Hax, Hidem. destruct r; reflexivity. }
  assert (exists res, draw self ax0 ax1 = (set_pcaxes self (Results (d0 :: rest')), res))
    as [res Hres].
  { unfold draw. rewrite Hv, Hp, Hm, Hax. simpl. rewrite Hrec.
    destruct r; eexists; reflexivity. }
  rewrite !Hres. simpl fst. rewrite Hagain. reflexivity.
Qed.

(** C5.  The reconciliation loop is a fixed point on its own output: run
    again with the same reference replicate and the same two axes on the
    replicates it returned, it returns them unchanged, and it ends the same
    way.  Accordingly a second [draw] with the same axes changes none of the
    coordinates the first one left on the object. *)
Theorem reconcile_fixed_point (ax0 ax1 : Z) :
  (forall datas : list (Np.ndarray Q),
      reconcile (fst (reconcile datas ax0 ax1)) ax0 ax1 = reconcile datas ax0 ax1)
  /\ (forall self : PCA,
         pcaxes (fst (draw (fst (draw self ax0 ax1)) ax0 ax1))
         = pcaxes (fst (draw self ax0 ax1))).
Proof.
  split; [|intros self; apply draw_again].
  intros [|d0 rest]; simpl; [reflexivity|].
  pose proof (reconcile_from_idem d0 rest ax0 ax1) as Hidem.
  destruct (reconcile_from d0 rest ax0 ax1) as [rest' r]. simpl in *.
  now rewrite Hidem.
Qed.

(** C10.  [draw] with two or more stored replicates writes the reconciled
    replicates back to [self.pcaxes]: once the axis check has passed, the
    stored arrays after the call are those the reconciliation loop returns,
    in which the column of an axis is negated for every later replicate
    whose negated column wins the slope comparison and left alone when it
    does not.  The stored coordinates can therefore differ from those [run]
    produced. *)
Theorem draw_rewrites_stored_replicates (self : PCA) (ax0 ax1 : Z)
    (d0 d1 : Np.ndarray Q) (rest : list (Np.ndarray Q))
    (vs : list (list Q)) (variance : list Q) :
  pcaxes self = Results (d0 :: d1 :: rest) ->
  variances self = Results vs ->
  Np.mean_axis0 vs = Py.Ok variance ->
  Z.max ax0 ax1 < Z.of_nat (Np.shape1 d0) ->
  pcaxes (fst (draw self ax0 ax1))
  = Results (d0 :: fst (reconcile_from d0 (d1 :: rest) ax0 ax1))
  /\ (forall di ax j,
         flip_wins d0 di ax = Py.Ok true ->
         Np.norm_index ax (Np.shape1 di) = Some j ->
         reconcile_axis d0 di ax = (Np.negate_column di j, Py.Ok tt)
         /\ Np.column 0%Q (Np.negate_column di j) j = map Qopp (Np.column 0%Q di j))
  /\ (forall di ax,
         flip_wins d0 di ax = Py.Ok false ->
         reconcile_axis d0 di ax = (di, Py.Ok tt)).
Proof.
  intros Hp Hv Hm Hax. split; [|split].
  - rewrite (draw_pcaxes self ax0 ax1 _ d0 vs variance Hp eq_refl Hv Hm Hax).
    unfold reconcile.
    destruct (reconcile_from d0 (d1 :: rest) ax0 ax1); reflexivity.
  - intros di ax j Hw Hj. split; [|apply column_negate_same].
    now rewrite reconcile_axis_spec, Hw, Hj.
  - intros di ax Hw. now rewrite reconcile_axis_spec, Hw.
Qed.

Lemma draw_rewrites_stored_replicates_witness :
  pcaxes (fst (draw Demo.two_replicates 0 1))
  = Results [ [[-1; 1]; [0; -2]; [1; 1]]; [[-1; 1]; [0; -2]; [1; 1]] ]%Q
  /\ pcaxes (fst (draw Demo.two_replicates 0 1)) <> pcaxes Demo.two_replicates.
Proof.
  destruct (draw_rewrites_stored_replicates Demo.two_replicates 0 1
              [[-1; 1]; [0; -2]; [1; 1]]%Q [[1; 1]; [0; -2]; [-1; 1]]%Q []
              [[3 # 4; 1 # 4]; [3 # 4; 1 # 4]] [ 24 # 32; 8 # 32 ]
              eq_refl eq_refl eq_refl eq_refl) as [H _].
  rewrite H. split; [reflexivity|]. simpl. discriminate.
Defined.

(** ** What [draw] plots *)

Lemma series_length (datas : list (Np.ndarray Q)) (ax0 ax1 : Z)
    (ss : list (list Q * list Q)) :
  series datas ax0 ax1 = Py.Ok ss ->
  Forall2 (fun d s => length (fst s) = length d /\ length (snd s) = length d) datas ss.
Proof.
  revert ss. induction datas as [|d datas IH]; intros ss; simpl.
  - intros [= <-]. constructor.
  - unfold Np.getcol.
    destruct (Np.norm_index ax0 (Np.shape1 d)) as [j0|]; [|discriminate].
    destruct (Np.norm_index ax1 (Np.shape1 d)) as [j1|]; [|discriminate].
    simpl. destruct (series datas ax0 ax1) as [rest|e]; [|discriminate].
    simpl. intros [= <-]. constructor; [|now apply IH].
    simpl. unfold Np.column. now rewrite !length_map.
Qed.

(** With two or more replicates the last scatterplot of [draw] shows the
    centroids computed from the replicate clouds. *)
Lemma draw_plot_centroids (self : PCA) (datas : list (Np.ndarray Q)) (variance : list Q)
    (ax0 ax1 : Z) (p : plot) :
  (2 <= length datas)%nat ->
  draw_plot self datas variance ax0 ax1 = Py.Ok p ->
  exists cs,
    series datas ax0 ax1 = Py.Ok (clouds p)
    /\ compute_centroids (clouds p) (length (names self)) = Py.Ok cs
    /\ mark p = (map fst cs, map snd cs).
Proof.
  intros HR. unfold draw_plot.
  destruct (markers_of _ _) as [marks|e]; [|discriminate]. simpl.
  destruct (labels_of _ _ _) as [labs|e]; [|discriminate]. simpl.
  destruct (series datas ax0 ax1) as [ss|e]; [|discriminate]. simpl.
  assert ((length datas <? 2)%nat = false) as -> by (apply Nat.ltb_ge; lia).
  destruct (compute_centroids ss _) as [cs|e] eqn:Hcs; [|discriminate]. simpl.
  intros [= <-]. exists cs. simpl. auto.
Qed.

(** ** The axis check of [draw] *)

(** C8.  When a requested axis index is at least the number of columns of
    replicate 0, [draw] raises the assertion error with its message about
    the number of axes and leaves the object exactly as it was: nothing has
    been reconciled, no centroid computed, nothing plotted.  (Only the mean
    of the stored variance vectors, needed for the axis labels, is taken
    before the check.) *)
Theorem draw_rejects_axis_out_of_range (self : PCA) (ax0 ax1 : Z)
    (d0 : Np.ndarray Q) (rest : list (Np.ndarray Q))
    (vs : list (list Q)) (variance : list Q) :
  pcaxes self = Results (d0 :: rest) ->
  variances self = Results vs ->
  Np.mean_axis0 vs = Py.Ok variance ->
  Z.of_nat (Np.shape1 d0) <= ax0 \/ Z.of_nat (Np.shape1 d0) <= ax1 ->
  draw self ax0 ax1
  = (self, Py.Raise (Py.AssertionError (axes_message (Np.shape1 d0)))).
Proof.
  intros Hp Hv Hm Hax. unfold draw. rewrite Hp, Hv, Hm.
  assert ((Z.max ax0 ax1 <? Z.of_nat (Np.shape1 d0)) = false) as ->
    by (apply Z.ltb_ge; lia).
  reflexivity.
Qed.

Lemma draw_rejects_axis_out_of_range_witness :
  draw Demo.two_replicates 0 2
  = (Demo.two_replicates, Py.Raise (Py.AssertionError "data set only has 2 axes.")).
Proof.
  apply (draw_rejects_axis_out_of_range Demo.two_replicates 0 2
           [[-1; 1]; [0; -2]; [1; 1]]%Q [ [[1; 1]; [0; -2]; [-1; 1]]%Q ]
           [[3 # 4; 1 # 4]; [3 # 4; 1 # 4]] [ 24 # 32; 8 # 32 ]
           eq_refl eq_refl eq_refl).
  right. simpl. lia.
Defined.

(** ** Centroids *)

Lemma insert_sorted_member (n a k : nat) :
  (a <= k < a + n)%nat ->
  Np.insert_sorted (Z.of_nat k) (map Z.of_nat (seq a n)) = map Z.of_nat (seq a n).
Proof.
  revert a. induction n as [|n IH]; intros a Hk; [lia|].
  simpl. destruct (Z.ltb_spec (Z.of_nat k) (Z.of_nat a)) as [E1|E1]; [lia|].
  destruct (Z.eqb_spec (Z.of_nat k) (Z.of_nat a)) as [E2|E2]; [reflexivity|].
  f_equal. apply IH. lia.
Qed.

Lemma unique_arange (n a : nat) :
  Np.unique (map Z.of_nat (seq a n)) = map Z.of_nat (seq a n).
Proof.
  revert a. induction n as [|n IH]; intros a; [reflexivity|].
  unfold Np.unique in *. simpl. rewrite IH.
  destruct n as [|n]; simpl; [reflexivity|].
  assert ((Z.of_nat a <? Z.of_nat (S a)) = true) as -> by (apply Z.ltb_lt; lia).
  reflexivity.
Qed.

Lemma insert_all_members (n : nat) (l : list nat) :
  Forall (fun k => (k < n)%nat) l ->
  fold_right Np.insert_sorted (map Z.of_nat (seq 0 n)) (map Z.of_nat l)
  = map Z.of_nat (seq 0 n).
Proof.
  induction 1 as [|k l Hk Hl IH]; simpl; [reflexivity|].
  rewrite IH. apply insert_sorted_member. lia.
Qed.

Lemma seq_below (n : nat) : Forall (fun k => (k < n)%nat) (seq 0 n).
Proof. apply List.Forall_forall. intros k Hk. apply in_seq in Hk. lia. Qed.

Lemma unique_yarr (n reps : nat) :
  Np.unique (yarr_of n (S reps)) = map Z.of_nat (seq 0 n).
Proof.
  induction reps as [|reps IH].
  - unfold yarr_of. simpl. rewrite app_nil_r. apply unique_arange.
  - unfold yarr_of in *. unfold Np.unique in *.
    change (Np.tile_arange n (S (S reps))) with (seq 0 n ++ Np.tile_arange n (S reps)).
    rewrite map_app, fold_right_app, IH.
    apply insert_all_members, seq_below.
Qed.

Lemma length_yarr (n reps : nat) : length (yarr_of n reps) = (reps * n)%nat.
Proof.
  unfold yarr_of. rewrite length_map.
  induction reps as [|reps IH]; simpl; [reflexivity|].
  now rewrite length_app, length_seq, IH.
Qed.

Lemma length_Xarr (ss : list (list Q * list Q)) (n : nat) :
  Forall (fun s => length (fst s) = n /\ length (snd s) = n) ss ->
  length (Xarr_of ss) = (length ss * n)%nat.
Proof.
  unfold Xarr_of. induction 1 as [|s ss [H1 H2] Hss IH]; simpl; [reflexivity|].
  rewrite length_app, IH, length_combine. lia.
Qed.

Lemma combine_app_same {A B} (a b : list A) (c d : list B) :
  length a = length c -> combine (a ++ b) (c ++ d) = combine a c ++ combine b d.
Proof.
  revert c. induction a as [|x a IH]; intros [|y c] H; simpl in *; try discriminate.
  - reflexivity.
  - f_equal. apply IH. lia.
Qed.

(** No row of a block is labelled with an index below the block's first
    label. *)
Lemma block_members_below (b : list (Q * Q)) (a k : nat) :
  (k < a)%nat ->
  List.filter (fun p => snd p =? Z.of_nat k)
              (combine b (map Z.of_nat (seq a (length b)))) = [].
Proof.
  revert a. induction b as [|x b IH]; intros a Hk; simpl; [reflexivity|].
  assert ((Z.of_nat a =? Z.of_nat k) = false) as -> by (apply Z.eqb_neq; lia).
  apply IH. lia.
Qed.

(** In one replicate's block, the label [k] picks row [k]. *)
Lemma block_members (b : list (Q * Q)) (a k : nat) :
  (a <= k < a + length b)%nat ->
  map fst (List.filter (fun p => snd p =? Z.of_nat k)
                       (combine b (map Z.of_nat (seq a (length b)))))
  = [nth (k - a) b (0, 0)%Q].
Proof.
  revert a. induction b as [|x b IH]; intros a Hk; simpl in *; [lia|].
  destruct (Z.eqb_spec (Z.of_nat a) (Z.of_nat k)) as [E|E].
  - assert (k = a) as -> by lia. rewrite Nat.sub_diag. simpl.
    rewrite block_members_below by lia. reflexivity.
  - rewrite IH by lia. replace (k - a)%nat with (S (k - S a)) by lia. reflexivity.
Qed.

Lemma members_replicates (ss : list (list Q * list Q)) (n k : nat) :
  Forall (fun s => length (fst s) = n /\ length (snd s) = n) ss ->
  (k < n)%nat ->
  Sklearn.members (Xarr_of ss) (yarr_of n (length ss)) (Z.of_nat k)
  = map (fun s => (nth k (fst s) 0%Q, nth k (snd s) 0%Q)) ss.
Proof.
  intros Hss Hk. unfold Sklearn.members, Xarr_of, yarr_of.
  induction Hss as [|s ss [H1 H2] Hss IH]; simpl; [reflexivity|].
  rewrite map_app, combine_app_same
    by (rewrite length_map, length_seq, length_combine; lia).
  rewrite List.filter_app, map_app, IH. f_equal.
  assert (length (combine (fst s) (snd s)) = n) as Hlen
    by (rewrite length_combine; lia).
  rewrite <- Hlen at 1. rewrite block_members by lia.
  rewrite Nat.sub_0_r, combine_nth by lia. reflexivity.
Qed.

(** C3.  For two or more replicates, each giving one coordinate pair per
    sample, the centroid that the nearest-centroid fit of [draw] computes
    for sample [k] is exactly the pair of means, over the replicates, of
    that sample's coordinates on the two axes.  (The estimator wants at
    least two classes, that is two samples.) *)
Theorem centroid_is_mean_over_replicates (ss : list (list Q * list Q)) (n : nat) :
  (2 <= length ss)%nat ->
  (2 <= n)%nat ->
  Forall (fun s => length (fst s) = n /\ length (snd s) = n) ss ->
  exists cs,
    compute_centroids ss n = Py.Ok cs
    /\ length cs = n
    /\ forall k, (k < n)%nat ->
         nth k cs (0, 0)%Q
         = (Np.mean (map (fun s => nth k (fst s) 0%Q) ss),
            Np.mean (map (fun s => nth k (snd s) 0%Q) ss)).
Proof.
  intros HR Hn Hss. unfold compute_centroids, Sklearn.NearestCentroid_centroids.
  rewrite (length_Xarr ss n Hss), length_yarr, Nat.eqb_refl.
  destruct (length ss) as [|reps] eqn:HRe; [lia|].
  rewrite unique_yarr, length_map, length_seq.
  assert ((n <? 2)%nat = false) as -> by (apply Nat.ltb_ge; lia).
  eexists. split; [reflexivity|]. split.
  - now rewrite !length_map, length_seq.
  - intros k Hk. rewrite map_map.
    rewrite (nth_indep _ _ (Sklearn.centroid (Xarr_of ss) (yarr_of n (S reps)) (Z.of_nat O)))
      by (rewrite length_map, length_seq; lia).
    rewrite (map_nth (fun x => Sklearn.centroid _ _ (Z.of_nat x))), seq_nth by lia.
    simpl. unfold Sklearn.centroid. rewrite <- HRe.
    rewrite (members_replicates ss n k Hss Hk), !map_map. reflexivity.
Qed.

Lemma centroid_is_mean_over_replicates_witness :
  exists cs,
    compute_centroids [ ([-1; 0; 1], [1; -2; 1]); ([-3; 0; 2], [3; -2; 1]) ]%Q 3
    = Py.Ok cs
    /\ length cs = 3%nat
    /\ forall k, (k < 3)%nat ->
         nth k cs (0, 0)%Q
         = (Np.mean (map (fun s => nth k (fst s) 0%Q)
                         [ ([-1; 0; 1], [1; -2; 1]); ([-3; 0; 2], [3; -2; 1]) ]%Q),
            Np.mean (map (fun s => nth k (snd s) 0%Q)
                         [ ([-1; 0; 1], [1; -2; 1]); ([-3; 0; 2], [3; -2; 1]) ]%Q)).
Proof.
  apply (centroid_is_mean_over_replicates
           [ ([-1; 0; 1], [1; -2; 1]); ([-3; 0; 2], [3; -2; 1]) ]%Q 3).
  - simpl. lia.
  - lia.
  - repeat constructor.
Defined.

(** ** Imputation policies *)

Lemma null_fill_row_clean (row : list Z) :
  existsb (fun v => v =? MISSING) (map (fun v => if v =? MISSING then 0 else v) row)
  = false.
Proof.
  induction row as [|v row IH]; simpl; [reflexivity|].
  rewrite IH, orb_false_r.
  destruct (Z.eqb_spec v MISSING) as [E|E]; [reflexivity|].
  now apply Z.eqb_neq.
Qed.

Lemma null_fill_clean (m : Np.ndarray Z) :
  has_missing (null_fill m) = false.
Proof.
  unfold has_missing, null_fill.
  induction m as [|row m IH]; simpl; [reflexivity|].
  now rewrite null_fill_row_clean, IH.
Qed.

Lemma null_fill_id (m : Np.ndarray Z) :
  has_missing m = false -> null_fill m = m.
Proof.
  unfold has_missing, null_fill.
  induction m as [|row m IH]; simpl; [reflexivity|].
  intros Hm. apply orb_false_elim in Hm as [Hrow Hm]. rewrite (IH Hm). f_equal.
  clear -Hrow. induction row as [|v row IH]; simpl in *; [reflexivity|].
  apply orb_false_elim in Hrow as [Hv Hrow]. now rewrite Hv, (IH Hrow).
Qed.

Lemma null_fill_changes (m : Np.ndarray Z) :
  has_missing m = true -> null_fill m <> m.
Proof.
  intros Hm Heq. pose proof (null_fill_clean m) as Hc. rewrite Heq in Hc. congruence.
Qed.

(** C6.  Under the null policy (an [impute_method] that is neither
    ["sample"] nor an integer, such as [None]) [_impute_data] replaces every
    missing call of the matrix by the code of the reference allele and
    leaves every other entry alone; the value written is the same for all
    samples and does not depend on the population map; the matrix it stores
    holds no missing call. *)
Theorem null_policy_writes_reference_allele `{Collaborators} (self : PCA) (w : world)
    (m : Np.ndarray Z) :
  dispatch (impute_method self) = Null ->
  snps self = Some m ->
  _impute_data self w
  = (set_snps self (Some (null_fill m)), _print self w Print_null_imputation, Py.Ok tt)
  /\ null_fill m = map (map (fun v => if v =? MISSING then REF_ALLELE else v)) m
  /\ has_missing (null_fill m) = false
  /\ (forall im, snps (fst (fst (_impute_data (set_imap self im) w)))
                 = Some (null_fill m)).
Proof.
  intros Hd Hs. repeat split.
  - unfold _impute_data. now rewrite Hd, Hs.
  - apply null_fill_clean.
  - intros im. unfold _impute_data. simpl. now rewrite Hd, Hs.
Qed.

Lemma null_policy_writes_reference_allele_witness :
  snps (fst (fst (@_impute_data Demo.collaborators
                    (set_snps Demo.two_replicates (Some [[0; 9]; [9; 2]]))
                    (Build_world_of (list Z) [] []))))
  = Some [[0; 0]; [0; 2]].
Proof.
  destruct (@null_policy_writes_reference_allele Demo.collaborators
              (set_snps Demo.two_replicates (Some [[0; 9]; [9; 2]]))
              (Build_world_of (list Z) [] []) [[0; 9]; [9; 2]]
              eq_refl eq_refl) as [H _].
  rewrite H. reflexivity.
Defined.

(** ** Missing data per sample *)














(** ** The constructor's imputation gate *)

Section Gate.
Context `{C : Collaborators}.

Lemma log_print (self : PCA) (w : world) (e : event) :
  log (_print self w e) = log w ++ (if quiet self then [] else [e]).
Proof. unfold _print. destruct (quiet self); simpl; [now rewrite app_nil_r|reflexivity]. Qed.

Lemma log_seed (w : world) : log (snd (_seed w)) = log w.
Proof. unfold _seed. destruct (np_random_randint (rng w) (10 ^ 9)). reflexivity. Qed.

Lemma rng_print (self : PCA) (w : world) (e : event) : rng (_print self w e) = rng w.
Proof. unfold _print. destruct (quiet self); reflexivity. Qed.

Lemma _seed_spec (w : world) :
  _seed w = (fst (np_random_randint (rng w) (10 ^ 9)),
             {| rng := snd (np_random_randint (rng w) (10 ^ 9)); log := log w |}).
Proof. unfold _seed. destruct (np_random_randint (rng w) (10 ^ 9)). reflexivity. Qed.

(** Every pass of the kmeans loop leaves a trace in the log. *)
Lemma kmeans_loop_log (its : list (nat * Q)) (self : PCA) (w : world) (im : imap_t) :
  exists l, log (snd (fst (kmeans_loop self w im its))) = log w ++ l
            /\ (its <> [] -> l <> []).
Proof.
  revert self w im. induction its as [|[it c] rest IH]; intros self w im.
  - exists []. simpl. split; [now rewrite app_nil_r|congruence].
  - simpl. destruct (it =? 4)%nat.
    + eexists. simpl. rewrite log_print, <- !app_assoc. split; [reflexivity|].
      intros _ Hl. apply (f_equal length) in Hl. rewrite !length_app in Hl.
      simpl in Hl. lia.
    + match goal with |- context [_seed ?w0] =>
        pose proof (log_seed w0) as Hs; destruct (_seed w0) as [seed ws] end.
      simpl in Hs.
      match goal with |- context [kmeans_loop ?s ?w0 ?i rest] =>
        destruct (IH s w0 i) as (l & Hl & _) end.
      eexists. rewrite Hl. rewrite !log_print. simpl. rewrite Hs. simpl.
      rewrite log_print. rewrite <- !app_assoc. split; [reflexivity|].
      intros _ Hn. apply (f_equal length) in Hn. rewrite !length_app in Hn.
      simpl in Hn. lia.
Qed.

(** What [_impute_data] visibly does, by policy. *)
Lemma impute_data_effect (self0 self : PCA) (w1 w' : world) (m : Np.ndarray Z)
    (r : Py.result unit) :
  snps self0 = Some m ->
  _impute_data self0 w1 = (self, w', r) ->
  match dispatch (impute_method self0) with
  | Null => snps self = Some (null_fill m)
  | Sample => log w' = log w1 ++ [Call_impute (imap self0)]
  | Kmeans => snps self = None \/ exists l, log w' = log w1 ++ l /\ l <> []
  end.
Proof.
  intros Hm. unfold _impute_data. rewrite Hm.
  destruct (dispatch (impute_method self0)).
  - intros [= <- <- <-]. reflexivity.
  - unfold _impute_kmeans.
    set (its := combine _ _).
    pose proof (kmeans_loop_log its self0 w1 [(KStr "global", names self0)]) as (l & Hl & Hne).
    destruct its as [|p its'] eqn:Eits.
    + simpl. intros [= <- <- <-]. now left.
    + destruct (kmeans_loop self0 w1 _ (p :: its')) as [[s2 w2] r2].
      intros [= <- <- <-]. right. exists l. simpl in Hl. split; [exact Hl|].
      apply Hne. discriminate.
  - intros [= <- <- <-]. reflexivity.
Qed.

(** How a successful construction came about. *)
Lemma init_cases (w w' : world) (data : string) (method : Py.value) (im : imap_t)
    (mm : minmap_t) (mincov : Q) (q : bool) (topcov : Q) (niters : nat) (self : PCA) :
  __init__ w data method im mm mincov q topcov niters = (w', Py.Ok self) ->
  exists (self0 : PCA) (w1 : world),
    snps self0 = Some (ext_snps (load data im mm mincov))
    /\ impute_method self0 = method
    /\ log w1 = log w ++ [Call_extract im (default_minmap im mm) mincov]
    /\ missing_of (ext_snps (load data im mm mincov)) (ext_names (load data im mm mincov))
       = Py.Ok (missing self0)
    /\ ((negb (Py.is_False method) && negb (ext_mvals (load data im mm mincov) =? 0) = false
         /\ self = self0 /\ w' = w1)
        \/ (negb (Py.is_False method) && negb (ext_mvals (load data im mm mincov) =? 0) = true
            /\ exists u, _impute_data self0 w1 = (self, w', Py.Ok u))).
Proof.
  unfold __init__.
  destruct sklearn_loaded; simpl; [|discriminate].
  destruct toyplot_loaded; simpl; [|discriminate].
  destruct (Py.endswith (realpath data) ".vcf"); [discriminate|].
  destruct (match im with [] => _ | _ => _ end) as [im' mm'].
  destruct (missing_of _ _) as [miss|e] eqn:Hmiss; [|discriminate].
  destruct (negb (Py.is_False method) && negb (ext_mvals _ =? 0)) eqn:Hgate.
  - match goal with |- context [_impute_data ?s ?w0] =>
      destruct (_impute_data s w0) as [[s2 w2] [u|e]] eqn:Himp; [|discriminate];
      intros [= <- <-]; exists s, w0 end.
    do 4 (split; [reflexivity || exact Hmiss|]).
    right. split; [reflexivity|]. now exists u.
  - intros [= Hw Hs]. exists self, w'. subst self w'.
    do 4 (split; [reflexivity || exact Hmiss|]).
    left. repeat split; reflexivity.
Qed.

Lemma kmeans_loop_missing (its : list (nat * Q)) (self : PCA) (w : world) (im : imap_t) :
  missing (fst (fst (kmeans_loop self w im its))) = missing self.
Proof.
  revert self w im. induction its as [|[it c] rest IH]; intros self w im; [reflexivity|].
  cbn [kmeans_loop]. destruct (it =? 4)%nat; [reflexivity|].
  rewrite _seed_spec. cbn [fst snd]. now rewrite IH.
Qed.

Lemma impute_data_missing (self : PCA) (w : world) :
  missing (fst (fst (_impute_data self w))) = missing self.
Proof.
  unfold _impute_data. destruct (dispatch (impute_method self)).
  - destruct (snps self); reflexivity.
  - unfold _impute_kmeans.
    pose proof (kmeans_loop_missing
                  (combine (seq 0 (length (Np.linspace (topcov self) (mincov self) (niters self))))
                           (Np.linspace (topcov self) (mincov self) (niters self)))
                  self w [(KStr "global", names self)]) as H.
    destruct (kmeans_loop self w _ _) as [[s2 w2] r2]. exact H.
  - destruct (snps self); reflexivity.
Qed.

(** The record of missing data on a constructed object is the one computed
    from the matrix as loaded, before any imputation. *)
Lemma init_missing (w w' : world) (data : string) (method : Py.value) (im : imap_t)
    (mm : minmap_t) (mincov : Q) (q : bool) (topcov : Q) (niters : nat) (self : PCA) :
  __init__ w data method im mm mincov q topcov niters = (w', Py.Ok self) ->
  missing_of (ext_snps (load data im mm mincov)) (ext_names (load data im mm mincov))
  = Py.Ok (missing self).
Proof.
  intros Hinit.
  destruct (init_cases _ _ _ _ _ _ _ _ _ _ _ Hinit)
    as (self0 & w1 & _ & _ & _ & Hmiss & [(_ & -> & _)|(_ & u & Himp)]);
    [exact Hmiss|].
  pose proof (impute_data_missing self0 w1) as H. rewrite Himp in H. simpl in H.
  now rewrite H.
Qed.

End Gate.

Lemma app_neq_self {A} (l l' : list A) : l' <> [] -> l ++ l' <> l.
Proof.
  intros Hne Heq. apply (f_equal length) in Heq. rewrite length_app in Heq.
  destruct l'; [congruence|]. simpl in Heq. lia.
Qed.

(** C9.  At the constructor, only [impute_method=False] leaves the loaded
    matrix as it is: the object then holds the extracted matrix, missing
    calls included, and nothing beyond the extraction has been run.  With
    [impute_method=None] the stored matrix is the extracted one with every
    missing call overwritten by 0.  So, on data that has missing calls (which
    the extracter flags in [_mvals]), leaving the matrix untouched happens
    exactly for [False], and [None] and [False] give different matrices. *)
Theorem None_imputes_only_False_opts_out `{C : Collaborators} (w w' : world)
    (data : string) (method : Py.value) (im : imap_t) (mm : minmap_t) (mincov : Q)
    (q : bool) (topcov : Q) (niters : nat) (self : PCA) :
  __init__ w data method im mm mincov q topcov niters = (w', Py.Ok self) ->
  mvals_flag_ok (load data im mm mincov) ->
  let m := ext_snps (load data im mm mincov) in
  let loaded := log w ++ [Call_extract im (default_minmap im mm) mincov] in
  (method = Py.PyBool false -> snps self = Some m /\ log w' = loaded)
  /\ (method = Py.PyNone ->
      snps self = Some (null_fill m) /\ has_missing (null_fill m) = false)
  /\ (has_missing m = true ->
      ((snps self = Some m /\ log w' = loaded) <-> method = Py.PyBool false)
      /\ null_fill m <> m).
Proof.
  intros Hinit Hflag m loaded.
  destruct (init_cases _ _ _ _ _ _ _ _ _ _ _ Hinit)
    as (self0 & w1 & Hs0 & Hm0 & Hl1 & _ & Hcase).
  fold m in Hs0. fold loaded in Hl1.
  assert (method = Py.PyBool false -> snps self = Some m /\ log w' = loaded) as HFalse.
  { intros ->. simpl in Hcase.
    destruct Hcase as [(_ & -> & ->)|(Hg & _)]; [|discriminate]. now split. }
  split; [exact HFalse|]. split.
  - intros ->. split; [|apply null_fill_clean].
    destruct Hcase as [(Hg & -> & ->)|(Hg & u & Himp)].
    + simpl in Hg. apply negb_false_iff, Z.eqb_eq in Hg.
      rewrite null_fill_id; [exact Hs0|].
      destruct (has_missing m) eqn:Hmiss; [|reflexivity].
      exfalso. now apply (proj2 Hflag).
    + pose proof (impute_data_effect _ _ _ _ _ _ Hs0 Himp) as He.
      rewrite Hm0 in He. exact He.
  - intros Hmiss. split; [|now apply null_fill_changes].
    split; [|exact HFalse].
    intros [Hs Hl].
    destruct (Py.is_False method) eqn:HF.
    { destruct method as [|[|]|z|s]; try discriminate; reflexivity. }
    exfalso. destruct Hcase as [(Hg & _)|(Hg & u & Himp)].
    + simpl in Hg. apply negb_false_iff, Z.eqb_eq in Hg.
      now apply (proj2 Hflag).
    + pose proof (impute_data_effect _ _ _ _ _ _ Hs0 Himp) as He.
      destruct (dispatch (impute_method self0)).
      * rewrite Hl, <- Hl1 in He. symmetry in He.
        now apply app_neq_self in He.
      * destruct He as [He|(l & He & Hne)]; [congruence|].
        rewrite Hl, <- Hl1 in He. symmetry in He. now apply app_neq_self in He.
      * rewrite Hs in He. injection He as He. symmetry in He.
        now apply null_fill_changes in He.
Qed.

Lemma None_imputes_only_False_opts_out_witness :
  exists w' self,
    Demo.built Py.PyNone = (w', Py.Ok self)
    /\ snps self = Some [[0; 0]; [0; 0]]
    /\ null_fill [[0; 9]; [0; 0]] <> [[0; 9]; [0; 0]].
Proof.
  destruct (Demo.built Py.PyNone) as [w' [self|e]] eqn:Hinit;
    [|vm_compute in Hinit; discriminate].
  exists w', self. split; [reflexivity|].
  assert (mvals_flag_ok (@load Demo.collaborators "demo.snps.hdf5" [] [] (1 # 10)))
    as Hflag by (split; [intros _; reflexivity|intros _; discriminate]).
  destruct (@None_imputes_only_False_opts_out Demo.collaborators _ _ _ _ _ _ _ _ _ _ _
              Hinit Hflag) as (_ & HNone & Hdiff).
  split; [exact (proj1 (HNone eq_refl))|].
  exact (proj2 (Hdiff eq_refl)).
Defined.

(** ** The kmeans loop *)

Lemma passes_app (l l' : list event) : passes (l ++ l') = passes l ++ passes l'.
Proof.
  induction l as [|e l IH]; simpl; [reflexivity|].
  destruct e; simpl; now rewrite ?IH.
Qed.

Lemma imputations_app (l l' : list event) :
  imputations (l ++ l') = (imputations l + imputations l')%nat.
Proof.
  induction l as [|e l IH]; simpl; [reflexivity|].
  destruct e; simpl; now rewrite ?IH.
Qed.

Lemma sampler_seeds_app (l l' : list event) :
  sampler_seeds (l ++ l') = sampler_seeds l ++ sampler_seeds l'.
Proof.
  induction l as [|e l IH]; simpl; [reflexivity|].
  destruct e; simpl; now rewrite ?IH.
Qed.

Lemma length_linspace (start stop : Q) (num : nat) :
  length (Np.linspace start stop num) = num.
Proof.
  destruct num as [|[|n]]; try reflexivity.
  unfold Np.linspace. now rewrite length_map, length_seq.
Qed.

Section Kmeans.
Context `{C : Collaborators}.

(** The loop body leaves the [return] only at the iteration numbered 4:
    started at iteration [a <= 4] on the thresholds [iters], the loop makes
    a filtering and imputation pass for each of the first [5 - a]
    thresholds and no other, and it comes back empty-handed exactly when
    there are fewer than [5 - a] thresholds. *)
Lemma kmeans_loop_passes (iters : list Q) (a : nat) (self : PCA) (w : world)
    (im : imap_t) :
  (a <= 4)%nat ->
  let r := kmeans_loop self w im (combine (seq a (length iters)) iters) in
  passes (log (snd (fst r))) = passes (log w) ++ firstn (5 - a) iters
  /\ imputations (log (snd (fst r)))
     = (imputations (log w) + Nat.min (length iters) (5 - a))%nat
  /\ (snd r = None <-> (length iters < 5 - a)%nat).
Proof.
  revert a self w im. induction iters as [|c iters IH]; intros a self w im Ha.
  - simpl. rewrite firstn_nil, app_nil_r. repeat split; try lia; auto.
  - simpl combine. cbn [kmeans_loop].
    destruct (Nat.eqb_spec a 4) as [E|E].
    + subst a. simpl. rewrite !passes_app, !imputations_app, log_print.
      rewrite passes_app, imputations_app.
      destruct (quiet self); simpl; rewrite ?app_nil_r, ?Nat.add_0_r;
        (repeat split; try reflexivity; try discriminate; lia).
    + match goal with |- context [_seed ?w0] =>
        pose proof (log_seed w0) as Hs; destruct (_seed w0) as [seed ws] end.
      simpl in Hs.
      match goal with |- context [kmeans_loop ?s ?w0 ?i _] =>
        destruct (IH (S a) s w0 i ltac:(lia)) as (Hp & Hi & Hr) end.
      cbv zeta in Hp, Hi, Hr. rewrite Hp, Hi, Hr.
      rewrite !log_print. simpl log. rewrite Hs. simpl log. rewrite log_print.
      rewrite !passes_app, !imputations_app.
      replace (5 - a)%nat with (S (5 - S a)) by lia.
      cbn [quiet set_snpsmap].
      destruct (quiet self); simpl; rewrite ?app_nil_r, ?Nat.add_0_r;
        rewrite <- ?app_assoc; simpl;
        (repeat split; try reflexivity; try discriminate; lia).
Qed.

(** The seeds the loop hands to the sampler are the successive draws of the
    global generator, one per pass that does not return. *)
Lemma kmeans_loop_seeds (iters : list Q) (a : nat) (self : PCA) (w : world)
    (im : imap_t) :
  (a <= 4)%nat ->
  sampler_seeds
    (log (snd (fst (kmeans_loop self w im (combine (seq a (length iters)) iters)))))
  = sampler_seeds (log w)
    ++ global_draws (rng w) (Nat.min (length iters) (4 - a)).
Proof.
  revert a self w im. induction iters as [|c iters IH]; intros a self w im Ha.
  - simpl. now rewrite app_nil_r.
  - simpl combine. cbn [kmeans_loop].
    destruct (Nat.eqb_spec a 4) as [E|E].
    + subst a. simpl. rewrite !sampler_seeds_app, log_print, sampler_seeds_app.
      destruct (quiet self); simpl; now rewrite ?app_nil_r.
    + rewrite _seed_spec. cbn [fst snd].
      match goal with |- context [kmeans_loop ?s ?w0 ?i _] =>
        rewrite (IH (S a) s w0 i ltac:(lia)) end.
      rewrite !log_print, !rng_print. cbn [log rng emit].
      rewrite log_print, rng_print.
      replace (4 - a)%nat with (S (4 - S a)) by lia.
      cbn [length Nat.min global_draws].
      destruct (np_random_randint (rng w) (10 ^ 9)) as [sd g]. cbn [fst snd].
      rewrite !sampler_seeds_app. cbn [quiet set_snpsmap].
      destruct (quiet self); simpl; rewrite ?app_nil_r, <- ?app_assoc; reflexivity.
Qed.

Lemma impute_kmeans_seeds (self : PCA) (w : world) (tc : Q) (n : nat) :
  sampler_seeds (log (snd (fst (_impute_kmeans self w tc n))))
  = sampler_seeds (log w) ++ global_draws (rng w) (Nat.min n 4).
Proof.
  unfold _impute_kmeans.
  pose proof (kmeans_loop_seeds (Np.linspace tc (mincov self) n) 0 self w
                [(KStr "global", names self)] ltac:(lia)) as H.
  rewrite length_linspace in *. exact H.
Qed.

(** [_impute_kmeans] makes [min niters 5] passes, at the first thresholds
    of the linspace, and returns a matrix only if [niters >= 5]. *)
Lemma impute_kmeans_passes (self : PCA) (w : world) (tc : Q) (n : nat) :
  let r := _impute_kmeans self w tc n in
  passes (log (snd (fst r)))
  = passes (log w) ++ firstn 5 (Np.linspace tc (mincov self) n)
  /\ imputations (log (snd (fst r))) = (imputations (log w) + Nat.min n 5)%nat
  /\ (snd r = None <-> (n < 5)%nat).
Proof.
  unfold _impute_kmeans.
  pose proof (kmeans_loop_passes (Np.linspace tc (mincov self) n) 0 self w
                [(KStr "global", names self)] ltac:(lia)) as H.
  rewrite length_linspace in *. exact H.
Qed.

End Kmeans.

(** The documented behaviour of the kmeans engine is what the code does for
    [niters = 5] and for no other number of iterations. *)
Lemma kmeans_as_documented_iff_five `{C : Collaborators} (self : PCA) (w : world)
    (tc : Q) (n : nat) :
  kmeans_passes_as_documented self w tc n <-> n = 5%nat.
Proof.
  unfold kmeans_passes_as_documented.
  pose proof (impute_kmeans_passes self w tc n) as (Hp & Hi & Hr). cbv zeta in *.
  destruct (_impute_kmeans self w tc n) as [[s w'] r]. simpl in *. split.
  - intros (_ & Hi' & m & ->).
    assert (~ (n < 5)%nat) by (intros Hlt; apply Hr in Hlt; discriminate). lia.
  - intros ->. split; [|split].
    + rewrite Hp. reflexivity.
    + rewrite Hi. reflexivity.
    + destruct r as [m|]; [now exists m|]. exfalso.
      assert (5 < 5)%nat by now apply Hr. lia.
Qed.

(** C1.  With [niters = 3] the engine makes its three passes, at the three
    thresholds of the linspace from [topcov] down to [mincov], and then falls
    out of the loop: it returns [None] instead of the imputed matrix of the
    third pass, because the [return] is tied to the iteration numbered 4.
    With [niters = 7] it returns after five passes, before the thresholds
    have come down to [mincov]. *)
Theorem impute_kmeans_returns_at_iteration_4 `{C : Collaborators} (self : PCA)
    (w : world) (tc : Q) :
  (snd (_impute_kmeans self w tc 3) = None
   /\ passes (log (snd (fst (_impute_kmeans self w tc 3))))
      = passes (log w) ++ Np.linspace tc (mincov self) 3
   /\ imputations (log (snd (fst (_impute_kmeans self w tc 3))))
      = (imputations (log w) + 3)%nat
   /\ ~ kmeans_passes_as_documented self w tc 3)
  /\ (imputations (log (snd (fst (_impute_kmeans self w tc 7))))
      = (imputations (log w) + 5)%nat
      /\ ~ kmeans_passes_as_documented self w tc 7).
Proof.
  split.
  - pose proof (impute_kmeans_passes self w tc 3) as (Hp & Hi & Hr). cbv zeta in *.
    split; [apply Hr; lia|]. split; [|split].
    + rewrite Hp. reflexivity.
    + rewrite Hi. reflexivity.
    + rewrite kmeans_as_documented_iff_five. discriminate.
  - pose proof (impute_kmeans_passes self w tc 7) as (Hp & Hi & Hr). cbv zeta in *.
    split; [rewrite Hi; reflexivity|].
    rewrite kmeans_as_documented_iff_five. discriminate.
Qed.

(** ** Replicates and seeds *)

Section Run.
Context `{C : Collaborators}.

Lemma _run_result (self : PCA) (w : world) (seed : Z) (sub q : bool) :
  snd (_run self w seed sub q)
  = match snps self with
    | None => Py.Raise Py.TypeError
    | Some m => Py.Ok (PCA_fit_transform (replicate_data self m sub seed))
    end.
Proof.
  unfold _run, replicate_data. destruct (snps self) as [m|]; [|reflexivity].
  destruct sub; reflexivity.
Qed.

Lemma _run_seeds (self : PCA) (w : world) (seed : Z) (sub q : bool)
    (m : Np.ndarray Z) :
  snps self = Some m ->
  sampler_seeds (log (fst (_run self w seed sub q)))
  = sampler_seeds (log w) ++ (if sub then [seed] else []).
Proof.
  intros Hm. unfold _run. rewrite Hm. destruct sub; simpl.
  - destruct q; simpl; rewrite !sampler_seeds_app; simpl;
      now rewrite ?app_nil_r.
  - now rewrite app_nil_r.
Qed.

Lemma run_replicates_result (self : PCA) (m : Np.ndarray Z) (sub : bool) (n : nat)
    (gen : RandomState) (w : world) :
  snps self = Some m ->
  snd (run_replicates self w gen sub n)
  = Py.Ok (map (fun sd => PCA_fit_transform (replicate_data self m sub sd))
               (draws gen (10 ^ 15) n))
  /\ sampler_seeds (log (fst (run_replicates self w gen sub n)))
     = sampler_seeds (log w) ++ (if sub then draws gen (10 ^ 15) n else []).
Proof.
  intros Hm. revert gen w. induction n as [|n IH]; intros gen w.
  - simpl. destruct sub; now rewrite app_nil_r.
  - cbn [run_replicates draws].
    destruct (RandomState_randint gen (10 ^ 15)) as [s gen'].
    pose proof (_run_result self w s sub true) as Hr.
    pose proof (_run_seeds self w s sub true m Hm) as Hl.
    rewrite Hm in Hr.
    destruct (_run self w s sub true) as [w1 r1]. simpl in Hr, Hl. subst r1.
    destruct (IH gen' w1) as [IHr IHl].
    destruct (run_replicates self w1 gen' sub n) as [w2 r2]. simpl in IHr, IHl.
    subst r2. simpl. split; [reflexivity|].
    rewrite IHl, Hl. destruct sub; simpl; now rewrite <- ?app_assoc.
Qed.

End Run.

Section Reproducibility.
Context `{C : Collaborators}.

(** With a non-zero seed, what [run] stores is a function of the object
    and the arguments. *)
Lemma run_outcome (self : PCA) (w : world) (R s : Z) (sub : bool) (q : option bool) :
  s <> 0 ->
  outcome (run self w R (Some s) sub q)
  = if negb ((0 <=? s) && (s <? 2 ^ 32))
    then (pcaxes self, variances self, Py.Raise Py.ValueError)
    else match snps self with
         | None => (pcaxes self, variances self, Py.Raise Py.TypeError)
         | Some m =>
             let seeds := draws (RandomState_seed s) (10 ^ 15)
                                (S (Z.to_nat ((if R =? 0 then 1 else R) - 1))) in
             (Results (map (fun sd => fst (PCA_fit_transform (replicate_data self m sub sd)))
                           seeds),
              Results (map (fun sd => snd (PCA_fit_transform (replicate_data self m sub sd)))
                           seeds),
              Py.Ok tt)
         end.
Proof.
  intros Hs. unfold run, outcome. rewrite (proj2 (Z.eqb_neq s 0) Hs).
  destruct (negb ((0 <=? s) && (s <? 2 ^ 32))); [reflexivity|].
  cbn [draws].
  destruct (RandomState_randint (RandomState_seed s) (10 ^ 15)) as [s0 gen].
  set (q' := match q with Some true => true | _ => quiet self end).
  pose proof (_run_result self w s0 sub q') as Hr.
  destruct (snps self) as [m|] eqn:Hm.
  - destruct (_run self w s0 sub q') as [w1 r1]. simpl in Hr. subst r1.
    destruct (run_replicates_result self m sub
                (Z.to_nat ((if R =? 0 then 1 else R) - 1)) gen w1 Hm) as [Hrs _].
    destruct (run_replicates self w1 gen sub _) as [w2 r2]. simpl in Hrs. subst r2.
    simpl. rewrite !map_map. reflexivity.
  - destruct (_run self w s0 sub q') as [w1 r1]. simpl in Hr. now subst r1.
Qed.

Lemma run_seeds (self : PCA) (w : world) (R s : Z) (sub : bool) (q : option bool)
    (m : Np.ndarray Z) :
  s <> 0 -> 0 <= s < 2 ^ 32 -> snps self = Some m ->
  sampler_seeds (log (snd (fst (run self w R (Some s) sub q))))
  = sampler_seeds (log w)
    ++ (if sub then draws (RandomState_seed s) (10 ^ 15)
                          (S (Z.to_nat ((if R =? 0 then 1 else R) - 1)))
        else []).
Proof.
  intros Hs Hrange Hm. unfold run. rewrite (proj2 (Z.eqb_neq s 0) Hs).
  assert (negb ((0 <=? s) && (s <? 2 ^ 32)) = false) as ->.
  { apply negb_false_iff, andb_true_iff. split; [apply Z.leb_le|apply Z.ltb_lt]; lia. }
  cbn [draws].
  destruct (RandomState_randint (RandomState_seed s) (10 ^ 15)) as [s0 gen].
  set (q' := match q with Some true => true | _ => quiet self end).
  pose proof (_run_result self w s0 sub q') as Hr.
  pose proof (_run_seeds self w s0 sub q' m Hm) as Hl.
  rewrite Hm in Hr.
  destruct (_run self w s0 sub q') as [w1 r1]. simpl in Hr, Hl. subst r1.
  destruct (run_replicates_result self m sub
              (Z.to_nat ((if R =? 0 then 1 else R) - 1)) gen w1 Hm) as [Hrs Hls].
  destruct (run_replicates self w1 gen sub _) as [w2 r2]. simpl in Hrs, Hls. subst r2.
  simpl. rewrite Hls, Hl. destruct sub; simpl; now rewrite <- ?app_assoc.
Qed.

(** A seed of 0 is taken for no seed at all. *)
Lemma run_seed_0_is_no_seed (self : PCA) (w : world) (R : Z) (sub : bool)
    (q : option bool) :
  run self w R (Some 0) sub q = run self w R None sub q.
Proof. reflexivity. Qed.

End Reproducibility.

(** C2, as amended.  For a non-zero top-level seed and a given object (its
    stored matrix and locus map), [run(seed=s, nreplicates=R)] stores the
    same coordinate matrices in [.pcaxes] and the same variance vectors in
    [.variances] whatever the state of the global generator; the seeds of
    the replicates, and with them the seeds given to the sampler, are the
    successive draws of one generator seeded with [s]. *)
Theorem run_reproducible_from_nonzero_seed `{C : Collaborators} (self : PCA)
    (w1 w2 : world) (R s : Z) (sub : bool) (q : option bool) :
  s <> 0 ->
  outcome (run self w1 R (Some s) sub q) = outcome (run self w2 R (Some s) sub q)
  /\ (forall m, snps self = Some m -> 0 <= s < 2 ^ 32 ->
        let seeds := draws (RandomState_seed s) (10 ^ 15)
                           (S (Z.to_nat ((if R =? 0 then 1 else R) - 1))) in
        outcome (run self w1 R (Some s) sub q)
        = (Results (map (fun sd => fst (PCA_fit_transform (replicate_data self m sub sd)))
                        seeds),
           Results (map (fun sd => snd (PCA_fit_transform (replicate_data self m sub sd)))
                        seeds),
           Py.Ok tt)
        /\ sampler_seeds (log (snd (fst (run self w1 R (Some s) sub q))))
           = sampler_seeds (log w1) ++ (if sub then seeds else [])).
Proof.
  intros Hs. split; [now rewrite !run_outcome|].
  intros m Hm Hrange seeds. split; [|now apply (run_seeds _ _ _ _ _ _ m)].
  rewrite run_outcome by assumption. rewrite Hm.
  assert (negb ((0 <=? s) && (s <? 2 ^ 32)) = false) as ->; [|reflexivity].
  apply negb_false_iff, andb_true_iff. split; [apply Z.leb_le|apply Z.ltb_lt]; lia.
Qed.

Lemma run_reproducible_from_nonzero_seed_witness :
  @outcome Demo.collaborators
    (@run Demo.collaborators Demo.two_replicates (Demo.start [3; 1]) 2 (Some 7) true None)
  = @outcome Demo.collaborators
      (@run Demo.collaborators Demo.two_replicates (Demo.start [4; 1; 5]) 2 (Some 7) true None).
Proof.
  apply (@run_reproducible_from_nonzero_seed Demo.collaborators Demo.two_replicates
           (Demo.start [3; 1]) (Demo.start [4; 1; 5]) 2 7 true None).
  discriminate.
Defined.

(** C2, as stated, fails: a full analysis imputes in the constructor, and the
    kmeans engine seeds its subsampling from the global generator, which the
    top-level seed of [run] does not reach.  On the demo collaborators two
    analyses with the same seed 7 store different coordinates when the
    global generator starts in different states. *)
Lemma full_runs_not_reproducible : ~ full_runs_reproducible.
Proof.
  intros H.
  specialize (H Demo.collaborators [0; 0; 0; 0] [1; 1; 1; 1] "demo.snps.hdf5"%string
                (Py.PyInt 2) [] [] (1 # 10)%Q true (9 # 10)%Q 5%nat 1 7 false).
  vm_compute in H. discriminate.
Qed.


(** * Further properties *)

(** ** What [run] writes *)

Section RunFrame.
Context `{C : Collaborators}.

Lemma run_replicates_length (self : PCA) (sub : bool) (n : nat) (gen : RandomState)
    (w : world) (rs : list (Np.ndarray Q * list Q)) :
  snd (run_replicates self w gen sub n) = Py.Ok rs -> length rs = n.
Proof.
  revert gen w rs. induction n as [|n IH]; intros gen w rs.
  - simpl. now intros [= <-].
  - cbn [run_replicates]. destruct (RandomState_randint gen (10 ^ 15)) as [s gen'].
    destruct (_run self w s sub true) as [w1 [r1|e]]; [|discriminate].
    specialize (IH gen' w1).
    destruct (run_replicates self w1 gen' sub n) as [w2 [rs'|e]]; [|discriminate].
    simpl. intros [= <-]. simpl. f_equal. now apply IH.
Qed.

(** X1.  [run] writes nothing but [.pcaxes] and [.variances]: when it raises,
    the object is exactly as before; when it returns, the two attributes
    hold one coordinate matrix and one variance vector per replicate, for
    [max(1, nreplicates)] replicates (a count of 0 or below still gives one),
    and every other attribute is as before. *)
Theorem run_writes_results_only (self : PCA) (w : world) (R : Z) (seed : option Z)
    (sub : bool) (q : option bool) :
  (forall e, snd (run self w R seed sub q) = Py.Raise e ->
             fst (fst (run self w R seed sub q)) = self)
  /\ (forall u, snd (run self w R seed sub q) = Py.Ok u ->
        exists rs,
          fst (fst (run self w R seed sub q))
          = set_variances (set_pcaxes self (Results (map fst rs))) (Results (map snd rs))
          /\ length rs = Z.to_nat (Z.max 1 R)).
Proof.
  unfold run.
  destruct (match seed with
            | Some s => if s =? 0 then _seed w else (s, w)
            | None => _seed w
            end) as [sd w0].
  destruct (negb ((0 <=? sd) && (sd <? 2 ^ 32))); [split; [reflexivity|discriminate]|].
  destruct (RandomState_randint (RandomState_seed sd) (10 ^ 15)) as [s0 gen].
  destruct (_run self w0 s0 sub _) as [w1 [r0|e0]];
    [|split; [reflexivity|discriminate]].
  pose proof (run_replicates_length self sub
                (Z.to_nat ((if R =? 0 then 1 else R) - 1)) gen w1) as Hlen.
  destruct (run_replicates self w1 gen sub _) as [w2 [rs|e1]];
    [|split; [reflexivity|discriminate]].
  split; [discriminate|]. intros u _. exists (r0 :: rs). split; [reflexivity|].
  simpl length. rewrite (Hlen rs eq_refl).
  destruct (Z.eqb_spec R 0); lia.
Qed.

End RunFrame.

(** ** The constructed object *)

Section Constructed.
Context `{C : Collaborators}.

Lemma init_fresh (w w' : world) (data : string) (method : Py.value) (im : imap_t)
    (mm : minmap_t) (mincov : Q) (q : bool) (tc : Q) (n : nat) (self : PCA) :
  __init__ w data method im mm mincov q tc n = (w', Py.Ok self) ->
  sklearn_loaded = true /\ toyplot_loaded = true
  /\ Py.endswith (realpath data) ".vcf" = false
  /\ exists miss,
      missing_of (ext_snps (load data im mm mincov)) (ext_names (load data im mm mincov))
      = Py.Ok miss
      /\ ((negb (Py.is_False method) && negb (ext_mvals (load data im mm mincov) =? 0)
           = false
           /\ self = fresh_object data method im mm mincov q tc n miss
           /\ w' = emit w (Call_extract im (default_minmap im mm) mincov))
          \/ (negb (Py.is_False method) && negb (ext_mvals (load data im mm mincov) =? 0)
              = true
              /\ _impute_data (fresh_object data method im mm mincov q tc n miss)
                              (emit w (Call_extract im (default_minmap im mm) mincov))
                 = (self, w', Py.Ok tt))).
Proof.
  unfold __init__, fresh_object.
  destruct sklearn_loaded; simpl; [|discriminate].
  destruct toyplot_loaded; simpl; [|discriminate].
  destruct (Py.endswith (realpath data) ".vcf"); [discriminate|].
  intros H. do 3 (split; [reflexivity|]).
  destruct (missing_of _ _) as [miss|e]; [|destruct im; discriminate].
  exists miss. split; [reflexivity|].
  destruct (negb (Py.is_False method) && negb (ext_mvals _ =? 0)).
  - right. split; [reflexivity|].
    destruct im as [|p im']; cbv zeta iota beta in H |- *;
      match type of H with context [_impute_data ?s ?w0] =>
        destruct (_impute_data s w0) as [[s2 w2] [[]|e]]; [|discriminate] end;
      now injection H as <- <-.
  - left. split; [reflexivity|].
    destruct im as [|p im']; cbv zeta iota beta in H; injection H as <- <-; now split.
Qed.

Lemma set_snpsmap_same (self : PCA) : set_snpsmap self (snpsmap self) = self.
Proof. now destruct self. Qed.

(** The kmeans loop rebinds [self.snpsmap] and no other attribute. *)
Lemma kmeans_loop_self (its : list (nat * Q)) (self : PCA) (w : world) (im : imap_t) :
  fst (fst (kmeans_loop self w im its))
  = set_snpsmap self (snpsmap (fst (fst (kmeans_loop self w im its)))).
Proof.
  revert self w im. induction its as [|[it c] rest IH]; intros self w im.
  - simpl. now rewrite set_snpsmap_same.
  - cbn [kmeans_loop]. destruct (it =? 4)%nat; [reflexivity|].
    rewrite _seed_spec. cbn [fst snd].
    match goal with |- context [kmeans_loop ?s ?w0 ?i rest] =>
      rewrite (IH s w0 i) at 1 end.
    reflexivity.
Qed.

Lemma impute_data_self (self : PCA) (w : world) :
  fst (fst (_impute_data self w))
  = set_snps (set_snpsmap self (snpsmap (fst (fst (_impute_data self w)))))
             (snps (fst (fst (_impute_data self w)))).
Proof.
  unfold _impute_data. destruct (dispatch (impute_method self)).
  - destruct (snps self) eqn:E; simpl; destruct self; simpl in *; now subst.
  - unfold _impute_kmeans.
    match goal with |- context [kmeans_loop ?s ?w0 ?i ?l] =>
      pose proof (kmeans_loop_self l s w0 i) as H;
      destruct (kmeans_loop s w0 i l) as [[s2 w2] r2] end.
    simpl in *. rewrite H at 1. reflexivity.
  - destruct (snps self) eqn:E; simpl; destruct self; simpl in *; now subst.
Qed.

(** What construction fixes whatever the imputation policy. *)
Lemma init_attributes (w w' : world) (data : string) (method : Py.value) (im : imap_t)
    (mm : minmap_t) (mincov : Q) (q : bool) (tc : Q) (n : nat) (self : PCA) :
  __init__ w data method im mm mincov q tc n = (w', Py.Ok self) ->
  names self = ext_names (load data im mm mincov)
  /\ imap self = match im with
                 | [] => [(KStr "1", ext_names (load data im mm mincov))]
                 | _ => im
                 end
  /\ pcaxes self = NoResults
  /\ variances self = NoResults
  /\ impute_method self = method
  /\ niters self = n.
Proof.
  intros Hinit.
  destruct (init_fresh _ _ _ _ _ _ _ _ _ _ _ Hinit)
    as (_ & _ & _ & miss & _ & [(_ & -> & _)|(_ & Himp)]).
  - repeat split; reflexivity.
  - pose proof (impute_data_self (fresh_object data method im mm mincov q tc n miss)
                  (emit w (Call_extract im (default_minmap im mm) mincov))) as H.
    rewrite Himp in H. simpl fst in H. rewrite H. repeat split; reflexivity.
Qed.

(** X2.  An object that has just been constructed cannot be drawn: [draw]
    raises AttributeError (the stored "results" are still the message
    string) and leaves the object as it is. *)
Theorem draw_before_run (w w' : world) (data : string) (method : Py.value)
    (im : imap_t) (mm : minmap_t) (mincov : Q) (q : bool) (tc : Q) (n : nat)
    (self : PCA) (ax0 ax1 : Z) :
  __init__ w data method im mm mincov q tc n = (w', Py.Ok self) ->
  draw self ax0 ax1 = (self, Py.Raise Py.AttributeError).
Proof.
  intros Hinit.
  destruct (init_attributes _ _ _ _ _ _ _ _ _ _ _ Hinit) as (_ & _ & _ & Hv & _).
  unfold draw. now rewrite Hv.
Qed.

End Constructed.

Lemma draw_before_run_witness :
  exists w' self,
    Demo.built Py.PyNone = (w', Py.Ok self)
    /\ draw self 0 1 = (self, Py.Raise Py.AttributeError).
Proof.
  destruct (Demo.built Py.PyNone) as [w' [self|e]] eqn:Hinit;
    [|vm_compute in Hinit; discriminate].
  exists w', self. split; [reflexivity|].
  exact (@draw_before_run Demo.collaborators _ _ _ _ _ _ _ _ _ _ _ 0 1 Hinit).
Defined.

(** X3.  An object constructed with the kmeans policy and fewer than five
    iterations, on data with missing calls, holds no matrix at all
    ([self.snps] is [None]); a later [run] with subsampling raises
    TypeError. *)
Theorem kmeans_below_five_iterations_breaks_run `{C : Collaborators} (w w' : world)
    (data : string) (method : Py.value) (im : imap_t) (mm : minmap_t) (mincov : Q)
    (q : bool) (tc : Q) (n : nat) (self : PCA) :
  __init__ w data method im mm mincov q tc n = (w', Py.Ok self) ->
  dispatch method = Kmeans ->
  Py.is_False method = false ->
  ext_mvals (load data im mm mincov) <> 0 ->
  (n < 5)%nat ->
  snps self = None
  /\ forall w2 R s q', s <> 0 -> 0 <= s < 2 ^ 32 ->
       snd (run self w2 R (Some s) true q') = Py.Raise Py.TypeError.
Proof.
  intros Hinit Hd HF Hmv Hn.
  assert (snps self = None) as Hnone.
  { destruct (init_fresh _ _ _ _ _ _ _ _ _ _ _ Hinit)
      as (_ & _ & _ & miss & _ & [(Hg & _)|(_ & Himp)]).
    - rewrite HF in Hg. simpl in Hg. apply negb_false_iff, Z.eqb_eq in Hg. contradiction.
    - unfold _impute_data in Himp. simpl impute_method in Himp. rewrite Hd in Himp.
      pose proof (impute_kmeans_passes
                    (fresh_object data method im mm mincov q tc n miss)
                    (emit w (Call_extract im (default_minmap im mm) mincov))
                    tc n) as (_ & _ & Hr).
      cbv zeta in Hr. simpl topcov in Himp. simpl niters in Himp.
      destruct (_impute_kmeans _ _ tc n) as [[s2 w2] r2]. simpl in Hr.
      injection Himp as <- _. simpl. now apply Hr. }
  split; [exact Hnone|].
  intros w2 R s q' Hs Hrange.
  pose proof (run_outcome self w2 R s true q' Hs) as Ho.
  rewrite Hnone in Ho.
  assert (negb ((0 <=? s) && (s <? 2 ^ 32)) = false) as Hb.
  { apply negb_false_iff, andb_true_iff. split; [apply Z.leb_le|apply Z.ltb_lt]; lia. }
  rewrite Hb in Ho. unfold outcome in Ho. now injection Ho.
Qed.

Lemma kmeans_below_five_iterations_breaks_run_witness :
  exists w' self,
    @__init__ Demo.collaborators (Demo.start [1; 1; 1]) "demo.snps.hdf5" (Py.PyInt 2)
      [] [] (1 # 10) true (9 # 10) 3 = (w', Py.Ok self)
    /\ snps self = None
    /\ snd (@run Demo.collaborators self (Demo.start []) 1 (Some 7) true None)
       = Py.Raise Py.TypeError.
Proof.
  destruct (@__init__ Demo.collaborators (Demo.start [1; 1; 1]) "demo.snps.hdf5"
              (Py.PyInt 2) [] [] (1 # 10) true (9 # 10) 3)
    as [w' [self|e]] eqn:Hinit; [|vm_compute in Hinit; discriminate].
  exists w', self. split; [reflexivity|].
  destruct (@kmeans_below_five_iterations_breaks_run Demo.collaborators _ _ _ _ _ _ _ _ _ _ _
              Hinit eq_refl eq_refl) as [Hnone Hrun].
  - discriminate.
  - lia.
  - split; [exact Hnone|]. apply Hrun; [discriminate|split; [discriminate|reflexivity]].
Defined.

(** ** What reconciliation does to the replicates *)

Lemma flip_wins_Ok_slope (d0 d : Np.ndarray Q) (ax : Z) (b : bool) :
  flip_wins d0 d ax = Py.Ok b ->
  exists orig new c,
    Np.getcol 0%Q d0 ax = Py.Ok orig
    /\ Np.getcol 0%Q d ax = Py.Ok new
    /\ Sklearn.LinearRegression_coef orig new = Py.Ok c
    /\ b = Qlt_bool c 0.
Proof.
  intros Hw. pose proof Hw as Hw'. unfold flip_wins in Hw.
  destruct (Np.getcol 0%Q d0 ax) as [orig|e] eqn:Ho; [|discriminate].
  destruct (Np.getcol 0%Q d ax) as [new|e] eqn:Hn; [|discriminate].
  simpl in Hw.
  destruct (Sklearn.LinearRegression_coef orig new) as [c|e] eqn:Hc; [|discriminate].
  exists orig, new, c. do 3 (split; [assumption || reflexivity|]).
  rewrite (flip_wins_negative_slope _ _ _ _ _ _ Ho Hn Hc) in Hw'. congruence.
Qed.

Lemma settled_oriented (d0 d : Np.ndarray Q) (ax : Z) :
  flip_wins d0 d ax = Py.Ok false -> oriented d0 d ax.
Proof.
  intros Hw. destruct (flip_wins_Ok_slope _ _ _ _ Hw) as (orig & new & c & Ho & Hn & Hc & Hb).
  exists orig, new, c. repeat split; try assumption.
  apply Qnot_lt_le. intros Hlt. apply Qlt_bool_iff in Hlt. congruence.
Qed.

Lemma reconcile_replicate_settled (d0 di m : Np.ndarray Q) (ax0 ax1 : Z) :
  reconcile_replicate d0 di ax0 ax1 = (m, Py.Ok tt) ->
  flip_wins d0 m ax1 = Py.Ok false
  /\ (Np.norm_index ax0 (Np.shape1 m) <> Np.norm_index ax1 (Np.shape1 m) ->
      flip_wins d0 m ax0 = Py.Ok false).
Proof.
  unfold reconcile_replicate.
  pose proof (reconcile_axis_settles d0 di ax0) as H0.
  destruct (reconcile_axis d0 di ax0) as [m1 [[]|e]]; [|discriminate]. simpl in H0.
  intros H1. pose proof (reconcile_axis_settles d0 m1 ax1) as Hs1.
  pose proof (reconcile_axis_shape1 d0 m1 ax1) as Hsh.
  rewrite H1 in Hs1, Hsh. simpl in Hs1, Hsh. split; [exact Hs1|].
  intros Hne. rewrite reconcile_axis_spec in H1.
  destruct (flip_wins d0 m1 ax1) as [[|]|e] eqn:Hw; try discriminate;
    try (injection H1 as <-; exact H0).
  destruct (flip_wins_index _ _ _ _ Hw) as [j Hj]. rewrite Hj in H1. simpl in H1.
  injection H1 as <-. rewrite flip_wins_negate_other; [exact H0|].
  rewrite shape1_negate_column in Hne. congruence.
Qed.

(** X4.  When the reconciliation loop runs to its end, every replicate after
    the first is oriented like the reference on the second axis: the slope
    fitted between the reference column and the replicate's column is not
    negative.  The same holds on the first axis when the two axes name
    different columns. *)
Theorem reconcile_orients_replicates (d0 : Np.ndarray Q) (rest rest' : list (Np.ndarray Q))
    (ax0 ax1 : Z) :
  reconcile (d0 :: rest) ax0 ax1 = (d0 :: rest', Py.Ok tt) ->
  Forall (fun d => oriented d0 d ax1
                   /\ (Np.norm_index ax0 (Np.shape1 d) <> Np.norm_index ax1 (Np.shape1 d) ->
                       oriented d0 d ax0)) rest'.
Proof.
  unfold reconcile.
  destruct (reconcile_from d0 rest ax0 ax1) as [out r] eqn:Hrec.
  intros [= -> ->]. revert rest' Hrec.
  induction rest as [|di rest IH]; intros rest' Hrec; simpl in Hrec.
  - injection Hrec as <-. constructor.
  - destruct (reconcile_replicate d0 di ax0 ax1) as [m [[]|e]] eqn:Hrep; [|discriminate].
    destruct (reconcile_from d0 rest ax0 ax1) as [out r] eqn:Hrest.
    injection Hrec as <- ->. constructor; [|now apply IH].
    destruct (reconcile_replicate_settled _ _ _ _ _ Hrep) as [H1 H0].
    split; [now apply settled_oriented|].
    intros Hne. now apply settled_oriented, H0.
Qed.

Lemma reconcile_orients_replicates_witness :
  Forall (fun d => oriented [[-1; 1]; [0; -2]; [1; 1]]%Q d 1
                   /\ (Np.norm_index 0 (Np.shape1 d) <> Np.norm_index 1 (Np.shape1 d) ->
                       oriented [[-1; 1]; [0; -2]; [1; 1]]%Q d 0))
         [ [[-1; 1]; [0; -2]; [1; 1]]%Q ].
Proof.
  apply (reconcile_orients_replicates [[-1; 1]; [0; -2]; [1; 1]]%Q
           [ [[1; 1]; [0; -2]; [-1; 1]]%Q ] [ [[-1; 1]; [0; -2]; [1; 1]]%Q ] 0 1).
  reflexivity.
Defined.

(** ** Edge cases of [draw] *)

(** X5.  The axis check lets negative indices through.  An index below
    minus the number of columns then fails inside the reconciliation loop,
    with a bare IndexError instead of the message about the number of axes;
    the stored replicates are still as they were. *)
Theorem draw_negative_axis_out_of_range (self : PCA) (ax0 ax1 : Z)
    (d0 d1 : Np.ndarray Q) (rest : list (Np.ndarray Q))
    (vs : list (list Q)) (variance : list Q) :
  pcaxes self = Results (d0 :: d1 :: rest) ->
  variances self = Results vs ->
  Np.mean_axis0 vs = Py.Ok variance ->
  ax0 < - Z.of_nat (Np.shape1 d0) ->
  ax1 < Z.of_nat (Np.shape1 d0) ->
  snd (draw self ax0 ax1) = Py.Raise Py.IndexError
  /\ pcaxes (fst (draw self ax0 ax1)) = Results (d0 :: d1 :: rest).
Proof.
  intros Hp Hv Hm H0 H1. unfold draw. rewrite Hp, Hv, Hm.
  assert ((Z.max ax0 ax1 <? Z.of_nat (Np.shape1 d0)) = true) as ->
    by (apply Z.ltb_lt; lia).
  simpl negb. cbv iota.
  assert (reconcile (d0 :: d1 :: rest) ax0 ax1 = (d0 :: d1 :: rest, Py.Raise Py.IndexError))
    as ->; [|split; reflexivity].
  simpl. unfold reconcile_replicate, reconcile_axis, Np.getcol, Np.norm_index.
  assert (((0 <=? ax0) && (ax0 <? Z.of_nat (Np.shape1 d0))) = false) as ->
    by (apply andb_false_iff; left; apply Z.leb_gt; lia).
  assert (((- Z.of_nat (Np.shape1 d0) <=? ax0) && (ax0 <? 0)) = false) as ->
    by (apply andb_false_iff; left; apply Z.leb_gt; lia).
  reflexivity.
Qed.

Lemma draw_negative_axis_out_of_range_witness :
  snd (draw Demo.two_replicates (-3) 1) = Py.Raise Py.IndexError
  /\ pcaxes (fst (draw Demo.two_replicates (-3) 1)) = pcaxes Demo.two_replicates.
Proof.
  apply (draw_negative_axis_out_of_range Demo.two_replicates (-3) 1
           [[-1; 1]; [0; -2]; [1; 1]]%Q [[1; 1]; [0; -2]; [-1; 1]]%Q []
           [[3 # 4; 1 # 4]; [3 # 4; 1 # 4]] [ 24 # 32; 8 # 32 ]
           eq_refl eq_refl eq_refl); simpl; lia.
Defined.

(** ** Populations and markers *)

Lemma irev_inner_notin (fr : gmap string key) (pop : key) (vals : list string)
    (name : string) :
  name ∉ vals ->
  fold_left (fun (irev : gmap string key) val => <[val := pop]> irev) vals fr !! name
  = fr !! name.
Proof.
  revert fr. induction vals as [|v vals IH]; intros fr Hn; simpl; [reflexivity|].
  apply not_elem_of_cons in Hn as [Hv Hvals].
  rewrite IH by assumption. now apply lookup_insert_ne.
Qed.

Lemma irev_inner_in (fr : gmap string key) (pop : key) (vals : list string)
    (name : string) :
  name ∈ vals ->
  fold_left (fun (irev : gmap string key) val => <[val := pop]> irev) vals fr !! name
  = Some pop.
Proof.
  revert fr. induction vals as [|v vals IH]; intros fr Hin; simpl; [inversion Hin|].
  destruct (decide (name ∈ vals)) as [Hl|Hl]; [now apply IH|].
  apply elem_of_cons in Hin as [->|Hin]; [|contradiction].
  rewrite irev_inner_notin by assumption. apply lookup_insert_eq.
Qed.

(** Adding a population at the end of the map. *)
Lemma irev_of_snoc (im : imap_t) (pop : key) (vals : list string) (name : string) :
  irev_of (im ++ [(pop, vals)]) !! name
  = if decide (name ∈ vals) then Some pop else irev_of im !! name.
Proof.
  unfold irev_of. rewrite fold_left_app. simpl.
  destruct (decide (name ∈ vals)) as [Hin|Hn].
  - now apply irev_inner_in.
  - now apply irev_inner_notin.
Qed.

(** A sample is absent from the reverse map exactly when no population
    lists it. *)
Lemma irev_of_None (im : imap_t) (name : string) :
  irev_of im !! name = None <-> Forall (fun p => name ∉ snd p) im.
Proof.
  induction im as [|[pop vals] im IH] using rev_ind.
  - split; [constructor|reflexivity].
  - rewrite irev_of_snoc, Forall_app. destruct (decide (name ∈ vals)) as [Hin|Hn].
    + split; [discriminate|]. intros [_ H]. inversion H; subst. contradiction.
    + rewrite IH. split; [intros H; split; [exact H|now repeat constructor]|now intros [H _]].
Qed.

(** X6.  The reverse map [irev] of [draw] knows a sample exactly when some
    population lists it, and gives it the last population that does (a
    sample listed twice takes the marker of the later population). *)
Theorem irev_last_population_wins (im : imap_t) (name : string) :
  (irev_of im !! name = None <-> Forall (fun p => name ∉ snd p) im)
  /\ forall pre pop vals post,
       im = pre ++ (pop, vals) :: post ->
       name ∈ vals ->
       Forall (fun p => name ∉ snd p) post ->
       irev_of im !! name = Some pop.
Proof.
  split; [apply irev_of_None|].
  - intros pre pop vals post -> Hin Hpost.
    induction post as [|[pop' vals'] post IH] using rev_ind.
    + now rewrite irev_of_snoc, decide_True.
    + apply Forall_app in Hpost as [Hpost Hlast]. inversion Hlast as [|? ? Hn _]; subst.
      change (pre ++ (pop, vals) :: post ++ [(pop', vals')])
        with (pre ++ ((pop, vals) :: post) ++ [(pop', vals')]).
      rewrite app_assoc, irev_of_snoc, decide_False by exact Hn. now apply IH.
Qed.

Lemma markers_of_uncovered (irev : gmap string key) (pre post : list string)
    (name : string) :
  Forall (fun n => is_Some (irev !! n)) pre ->
  irev !! name = None ->
  markers_of irev (pre ++ name :: post) = Py.Raise (Py.KeyError name).
Proof.
  intros Hpre Hname. induction Hpre as [|n pre [pop Hn] Hpre IH]; simpl.
  - now rewrite Hname.
  - now rewrite Hn, IH.
Qed.

(** X7.  A sample that no population of [imap] lists makes [draw] raise
    KeyError with that sample's name (the first such sample in the order of
    the names); with two or more replicates the stored coordinates have by
    then been reconciled. *)
Theorem draw_sample_without_population (self : PCA) (ax0 ax1 : Z)
    (d0 : Np.ndarray Q) (rest : list (Np.ndarray Q)) (vs : list (list Q))
    (variance : list Q) (pre post : list string) (name : string) :
  pcaxes self = Results (d0 :: rest) ->
  variances self = Results vs ->
  Np.mean_axis0 vs = Py.Ok variance ->
  Z.max ax0 ax1 < Z.of_nat (Np.shape1 d0) ->
  snd (reconcile (d0 :: rest) ax0 ax1) = Py.Ok tt ->
  names self = pre ++ name :: post ->
  Forall (fun n => is_Some (irev_of (imap self) !! n)) pre ->
  Forall (fun p => name ∉ snd p) (imap self) ->
  draw self ax0 ax1
  = (set_pcaxes self (Results (fst (reconcile (d0 :: rest) ax0 ax1))),
     Py.Raise (Py.KeyError name)).
Proof.
  intros Hp Hv Hm Hax Hrec Hnames Hpre Hname.
  unfold draw. rewrite Hp, Hv, Hm.
  assert ((Z.max ax0 ax1 <? Z.of_nat (Np.shape1 d0)) = true) as ->
    by (apply Z.ltb_lt; lia).
  simpl negb. cbv iota.
  destruct (reconcile (d0 :: rest) ax0 ax1) as [datas r]. simpl in Hrec. subst r.
  simpl fst. f_equal. unfold draw_plot. cbn [imap names set_pcaxes].
  rewrite Hnames, markers_of_uncovered; [reflexivity|exact Hpre|].
  now apply irev_of_None.
Qed.

Lemma draw_sample_without_population_witness :
  draw (set_imap Demo.two_replicates [(KStr "1", ["a"; "b"]%string)]) 0 1
  = (set_pcaxes (set_imap Demo.two_replicates [(KStr "1", ["a"; "b"]%string)])
       (Results [ [[-1; 1]; [0; -2]; [1; 1]]; [[-1; 1]; [0; -2]; [1; 1]] ]%Q),
     Py.Raise (Py.KeyError "c")).
Proof.
  apply (draw_sample_without_population
           (set_imap Demo.two_replicates [(KStr "1", ["a"; "b"]%string)]) 0 1
           [[-1; 1]; [0; -2]; [1; 1]]%Q [ [[1; 1]; [0; -2]; [-1; 1]]%Q ]
           [[3 # 4; 1 # 4]; [3 # 4; 1 # 4]] [ 24 # 32; 8 # 32 ]
           ["a"; "b"]%string [] "c"%string eq_refl eq_refl eq_refl).
  - simpl. lia.
  - reflexivity.
  - reflexivity.
  - repeat constructor; vm_compute; eauto.
  - repeat constructor. apply (bool_decide_unpack _). vm_compute. reflexivity.
Defined.

(** ** The population map found by k-means *)

Lemma in_insert_sorted (z y : Z) (l : list Z) :
  In z (Np.insert_sorted y l) <-> z = y \/ In z l.
Proof.
  induction l as [|x l IH]; simpl; [intuition|].
  destruct (Z.ltb_spec y x); simpl; [intuition|].
  destruct (Z.eqb_spec y x); simpl; [subst; intuition|].
  rewrite IH. intuition.
Qed.

Lemma in_unique (z : Z) (l : list Z) : In z (Np.unique l) <-> In z l.
Proof.
  unfold Np.unique. induction l as [|x l IH]; simpl; [reflexivity|].
  rewrite in_insert_sorted, IH. intuition.
Qed.

Lemma in_where_eq_from (v : list Z) (i : Z) (a j : nat) :
  In j (map fst (List.filter (fun p => snd p =? i) (combine (seq a (length v)) v)))
  <-> (a <= j)%nat /\ v !! (j - a)%nat = Some i.
Proof.
  revert a. induction v as [|x v IH]; intros a; simpl.
  - split; [contradiction|now intros [_ H]].
  - destruct (Z.eqb_spec x i) as [E|E]; simpl; rewrite IH.
    + split.
      * intros [<-|[Hle Hl]].
        -- rewrite Nat.sub_diag. simpl. split; [lia|congruence].
        -- split; [lia|]. replace (j - a)%nat with (S (j - S a)) by lia. exact Hl.
      * intros [Hle Hl]. destruct (decide (j = a)) as [->|Hne]; [now left|right].
        split; [lia|]. replace (j - a)%nat with (S (j - S a)) in Hl by lia. exact Hl.
    + split.
      * intros [Hle Hl]. split; [lia|].
        replace (j - a)%nat with (S (j - S a)) by lia. exact Hl.
      * intros [Hle Hl]. destruct (decide (j = a)) as [->|Hne].
        -- rewrite Nat.sub_diag in Hl. simpl in Hl. congruence.
        -- split; [lia|]. replace (j - a)%nat with (S (j - S a)) in Hl by lia. exact Hl.
Qed.

Lemma in_where_eq (v : list Z) (i : Z) (j : nat) :
  In j (Np.where_eq v i) <-> v !! j = Some i.
Proof.
  unfold Np.where_eq. rewrite in_where_eq_from, Nat.sub_0_r. intuition lia.
Qed.

(** The loop hands the population map built from the cluster labels to its
    next pass. *)
Lemma kmeans_loop_next `{C : Collaborators} (self : PCA) (w : world) (im : imap_t)
    (it : nat) (c : Q) (rest : list (nat * Q)) :
  it <> 4%nat ->
  let se := parse_genos_from_hdf5 (data self) im
              (map (fun p => (fst p, mincov self)) im) c in
  let impdata := SNPsImputer_run (ext_snps se) (ext_names se) im in
  let seed := fst (np_random_randint (rng w) (10 ^ 9)) in
  let labels_ :=
    KMeans_labels (Py.int_of (impute_method self))
      (fst (PCA_fit_transform
              (Np.take_columns 0 impdata (jsubsample_snps (ext_snpsmap se) seed)))) in
  exists w1,
    kmeans_loop self w im ((it, c) :: rest)
    = kmeans_loop (set_snpsmap self (ext_snpsmap se)) w1
                  (imap_of_labels (ext_names se) labels_) rest.
Proof.
  intros Hit. cbn [kmeans_loop]. rewrite (proj2 (Nat.eqb_neq it 4) Hit).
  rewrite _seed_spec. cbn [fst snd rng emit]. rewrite rng_print.
  eexists. reflexivity.
Qed.

(** X8.  The population map built from the cluster labels has no empty
    population, has a population for every label that occurs, and puts every
    sample in the population of its own label and in no other (names being
    distinct, one label per name). *)
Theorem imap_of_labels_partitions (names : list string) (labels_ : list Z) :
  NoDup names ->
  length labels_ = length names ->
  (forall pop members, In (pop, members) (imap_of_labels names labels_) -> members <> [])
  /\ (forall j lab, labels_ !! j = Some lab ->
        exists members, In (KInt lab, members) (imap_of_labels names labels_))
  /\ (forall j name lab pop members,
        names !! j = Some name ->
        labels_ !! j = Some lab ->
        In (pop, members) (imap_of_labels names labels_) ->
        (In name members <-> pop = KInt lab)).
Proof.
  intros Hnd Hlen. unfold imap_of_labels. split; [|split].
  - intros pop members Hin. apply in_map_iff in Hin as (i & [= <- <-] & Hi).
    apply (proj1 (in_unique _ _)), list_elem_of_In, list_elem_of_lookup in Hi as [j Hj].
    apply (proj2 (in_where_eq _ _ _)) in Hj. intros Hnil. apply map_eq_nil in Hnil.
    rewrite Hnil in Hj. contradiction.
  - intros j lab Hj. eexists. apply in_map_iff. exists lab. split; [reflexivity|].
    apply (proj2 (in_unique _ _)), list_elem_of_In.
    eapply list_elem_of_lookup_2. exact Hj.
  - intros j name lab pop members Hname Hlab Hin.
    apply in_map_iff in Hin as (i & [= <- <-] & Hi). split.
    + intros Hmem. apply in_map_iff in Hmem as (j' & Hnth & Hj').
      apply (proj1 (in_where_eq _ _ _)) in Hj'.
      assert (names !! j' = Some name) as Hname'.
      { pose proof (lookup_lt_Some _ _ _ Hj') as Hlt. rewrite Hlen in Hlt.
        destruct (lookup_lt_is_Some_2 names _ Hlt) as [x Hx].
        rewrite (nth_lookup_Some _ _ _ _ Hx) in Hnth. congruence. }
      assert (j' = j) as -> by (eapply NoDup_lookup; eauto).
      congruence.
    + intros [= ->]. apply in_map_iff. exists j. split.
      * now apply nth_lookup_Some.
      * now apply (proj2 (in_where_eq _ _ _)).
Qed.

Lemma imap_of_labels_partitions_witness :
  exists members,
    In (KInt 1, members) (imap_of_labels ["a"; "b"; "c"]%string [1; 0; 1])
    /\ members <> [].
Proof.
  destruct (imap_of_labels_partitions ["a"; "b"; "c"]%string [1; 0; 1])
    as (Hne & Hex & _).
  - apply (bool_decide_unpack _). vm_compute. reflexivity.
  - reflexivity.
  - destruct (Hex 0%nat 1 eq_refl) as [members Hin].
    exists members. split; [exact Hin|]. exact (Hne _ _ Hin).
Defined.

(** ** [run_tsne] and [run_and_plot_2D] *)

Lemma norm_index_lt (ax : Z) (n j : nat) : Np.norm_index ax n = Some j -> (j < n)%nat.
Proof.
  unfold Np.norm_index.
  destruct (Z.leb_spec 0 ax), (Z.ltb_spec ax (Z.of_nat n)); simpl;
    try (intros [= <-]; lia);
    destruct (Z.leb_spec (- Z.of_nat n) ax), (Z.ltb_spec ax 0); simpl;
    try discriminate; intros [= <-]; lia.
Qed.

(** X9.  After a successful [run_tsne] the object holds one replicate, the
    embedding, with the placeholder variances [-1, -2]; a [draw] that then
    succeeds labels both axes as t-SNE components (not as PCs with a
    percentage), draws no replicate cloud and leaves the embedding as
    stored. *)
Theorem tsne_results_are_drawn_as_tsne `{C : Collaborators}
    (TSNE_fit_transform : Q -> Z -> Z -> option (Np.ndarray Z) -> Py.result (Np.ndarray Q))
    (self self' : PCA) (w w' : world) (sub : bool) (perplexity n_iter : Q)
    (seed : option Z) :
  run_tsne TSNE_fit_transform self w sub perplexity n_iter seed = (self', w', Py.Ok tt) ->
  exists t,
    pcaxes self' = Results [t]
    /\ variances self' = Results [[-1; -2]%Q]
    /\ forall ax0 ax1,
         pcaxes (fst (draw self' ax0 ax1)) = Results [t]
         /\ forall p, snd (draw self' ax0 ax1) = Py.Ok p ->
              xlabel p = TSNE_label 1 /\ ylabel p = TSNE_label 2 /\ clouds p = [].
Proof.
  unfold run_tsne.
  destruct (match seed with
            | Some s => if s =? 0 then _seed w else (s, w)
            | None => _seed w
            end) as [sd w0].
  destruct (if sub then _ else _) as [[data|e] w1]; [|discriminate].
  destruct (TSNE_fit_transform _ _ _ _) as [t|e]; [|discriminate].
  intros [= <- <-]. exists t. split; [reflexivity|]. split; [reflexivity|].
  intros ax0 ax1. split.
  - match goal with |- context [draw ?s _ _] =>
      destruct (draw_pcaxes_cases s ax0 ax1) as [->|(datas & Hp & ->)] end;
      [reflexivity|].
    simpl in Hp. now injection Hp as <-.
  - intros p. unfold draw. simpl variances. simpl pcaxes. cbv iota.
    change (Np.mean_axis0 [[-1; -2]%Q])
      with (@Py.Ok (list Q) [Np.mean [(-1)%Q]; Np.mean [(-2)%Q]]).
    cbv iota. destruct (negb _); [discriminate|]. simpl reconcile. cbv iota beta.
    unfold draw_plot.
    destruct (markers_of _ _) as [marks|e]; [|discriminate]. simpl.
    unfold labels_of, getitem. simpl length.
    destruct (Np.norm_index ax0 2) as [j0|] eqn:H0; [|discriminate].
    apply norm_index_lt in H0.
    assert (Qle_bool 0 (nth j0 [Np.mean [(-1)%Q]; Np.mean [(-2)%Q]] 0%Q) = false) as Hneg
      by (destruct j0 as [|[|j0]]; [reflexivity|reflexivity|lia]).
    cbn [mbind result_bind Py.bind]. rewrite Hneg.
    cbn [mbind result_bind Py.bind mret result_ret].
    destruct (Np.getcol 0%Q t ax0) as [x|e]; [|discriminate]. simpl.
    destruct (Np.getcol 0%Q t ax1) as [y|e]; [|discriminate]. simpl.
    intros [= <-]. simpl. auto.
Qed.

Lemma tsne_results_are_drawn_as_tsne_witness :
  exists self' w',
    @run_tsne Demo.collaborators
      (fun _ _ _ data => match data with
                         | Some m => Py.Ok (map (map inject_Z) m)
                         | None => Py.Raise Py.ValueError
                         end)
      Demo.two_replicates (Demo.start []) false 5 1000000 (Some 7)
    = (self', w', Py.Ok tt)
    /\ exists t, pcaxes self' = Results [t] /\ variances self' = Results [[-1; -2]%Q].
Proof.
  eexists _, _. split; [reflexivity|].
  destruct (@tsne_results_are_drawn_as_tsne Demo.collaborators
              (fun _ _ _ data => match data with
                                 | Some m => Py.Ok (map (map inject_Z) m)
                                 | None => Py.Raise Py.ValueError
                                 end)
              Demo.two_replicates _ (Demo.start []) _ false 5 1000000 (Some 7) eq_refl)
    as (t & Hp & Hv & _).
  exists t. split; [exact Hp|exact Hv].
Defined.



